(** * FileAI: the vector service and the chat page, embedded and verified

    The development follows two pieces of the repository:

    - the vector service ([storeInVectorDB], [searchVectorStore],
      [deleteFromVectorDB]), which talks to an external vector store
      through the three operations [upsert], [search] and [delete];
    - the submit handler of the search page ([handleSubmit]), which keeps
      the list of chat messages shown to the user.

    Asynchronous functions are modelled as computations over an explicit
    world: they return a value or throw, and they may change the world. *)

From stdpp Require Import gmap strings list fin_maps pretty sorting.
From Stdlib Require Import QArith.Qcanon.

Local Open Scope string_scope.
Local Open Scope Z_scope.
Local Open Scope list_scope.

(** ** Values, records and the adapter interface *)

(** The values stored under a key of a [Record<string, any>]. *)
Inductive value : Type :=
  | VStr (s : string)
  | VNum (n : Z)
  | VBool (b : bool)
  | VNull.

#[global] Instance value_eq_dec : EqDecision value.
Proof. solve_decision. Defined.

(** A JavaScript object used as a map from keys to values. *)
Abbreviation object := (gmap string value).

(** What is thrown: the message of the error object. *)
Definition error : Type := string.

(** The result of running an asynchronous call to its end. *)
Inductive outcome (A : Type) : Type :=
  | Returned (a : A)
  | Thrown (e : error).
Arguments Returned {A} a.
Arguments Thrown {A} e.

Definition is_thrown {A} (o : outcome A) : bool :=
  match o with Thrown _ => true | Returned _ => false end.

(** A record handed to [upsert]. *)
Record VectorDocument : Type := mkDocument {
  doc_id : string;
  doc_content : string;
  doc_metadata : object;
}.

(** A hit returned by [search]. *)
Record SearchResult : Type := mkResult {
  hit_id : string;
  hit_content : string;
  hit_score : Qc;
  hit_metadata : object;
}.

(** The vector store behind [getVectorStore]: its state is a value of
    type [S], a write returns the new state also when it throws, and a
    search only reads. *)
Class VectorStore (S : Type) : Type := {
  vs_upsert : list VectorDocument → S → outcome unit * S;
  vs_search : string → Z → object → S → outcome (list SearchResult);
  vs_delete : list string → S → outcome unit * S;
}.

(** The splitter of [@langchain/textsplitters], built from the two shared
    constants; [splitText] is a function of the text alone. *)
Class TextSplitter : Type := {
  chunkSize : Z;
  chunkOverlap : Z;
  splitText : string → list string;
}.

(** [crypto.randomUUID]: [uuidSource n] is the value of the call number
    [n] made by the process. *)
Class Crypto : Type := {
  uuidSource : nat → string;
}.

(** ** The world of the vector service *)

Inductive AdapterCall : Type :=
  | CallUpsert (documents : list VectorDocument)
  | CallSearch (query : string) (topK : Z) (filter : object)
  | CallDelete (ids : list string).

Inductive LogEntry : Type :=
  | ConsoleLog (line : string)
  | ConsoleError (line : string) (err : error).

Record World (S : Type) : Type := mkWorld {
  store : S;                       (* the state of the vector store *)
  connectError : option error;     (* what getVectorStore throws, if it does *)
  uuidDraws : nat;                 (* calls of randomUUID made so far *)
  adapterCalls : list AdapterCall; (* adapter operations invoked, oldest first *)
  console : list LogEntry;         (* console output, oldest first *)
}.
Arguments mkWorld {S}.
Arguments store {S}.
Arguments connectError {S}.
Arguments uuidDraws {S}.
Arguments adapterCalls {S}.
Arguments console {S}.

(** ** Computations that may throw *)

Definition Eff (S A : Type) : Type := World S → outcome A * World S.

#[global] Instance eff_ret {S} : MRet (Eff S) :=
  λ A a w, (Returned a, w).

#[global] Instance eff_bind {S} : MBind (Eff S) :=
  λ A B k m w, match m w with
               | (Returned a, w') => k a w'
               | (Thrown e, w') => (Thrown e, w')
               end.

(** [try { body } catch (error) { handler }] *)
Definition try_catch {S A} (body : Eff S A) (handler : error → Eff S A) : Eff S A :=
  λ w, match body w with
       | (Returned a, w') => (Returned a, w')
       | (Thrown e, w') => handler e w'
       end.

Section Service.
Context {S : Type} `{!VectorStore S} `{!TextSplitter} `{!Crypto}.

Definition getVectorStore : Eff S unit :=
  λ w, match connectError w with
       | Some e => (Thrown e, w)
       | None => (Returned (), w)
       end.

Definition randomUUID : Eff S string :=
  λ w, (Returned (uuidSource (uuidDraws w)),
        mkWorld (store w) (connectError w) (Datatypes.S (uuidDraws w))
                (adapterCalls w) (console w)).

Definition console_log (line : string) : Eff S unit :=
  λ w, (Returned (),
        mkWorld (store w) (connectError w) (uuidDraws w)
                (adapterCalls w) (console w ++ [ConsoleLog line])).

Definition console_error (line : string) (err : error) : Eff S unit :=
  λ w, (Returned (),
        mkWorld (store w) (connectError w) (uuidDraws w)
                (adapterCalls w) (console w ++ [ConsoleError line err])).

Definition upsert (documents : list VectorDocument) : Eff S unit :=
  λ w, let '(r, s') := vs_upsert documents (store w) in
       (r, mkWorld s' (connectError w) (uuidDraws w)
                   (adapterCalls w ++ [CallUpsert documents]) (console w)).

Definition search (query : string) (topK : Z) (filter : object)
  : Eff S (list SearchResult) :=
  λ w, (vs_search query topK filter (store w),
        mkWorld (store w) (connectError w) (uuidDraws w)
                (adapterCalls w ++ [CallSearch query topK filter]) (console w)).

Definition delete_ids (ids : list string) : Eff S unit :=
  λ w, let '(r, s') := vs_delete ids (store w) in
       (r, mkWorld s' (connectError w) (uuidDraws w)
                   (adapterCalls w ++ [CallDelete ids]) (console w)).

(** [array.map((x, index) => ...)] with a callback that has effects: the
    callback runs once per element, in index order. *)
Fixpoint map_indexed {A B} (f : A → nat → Eff S B) (l : list A) (index : nat)
  : Eff S (list B) :=
  match l with
  | [] => mret []
  | x :: rest =>
      y ← f x index;
      ys ← map_indexed f rest (Datatypes.S index);
      mret (y :: ys)
  end.

(** *** storeInVectorDB *)

Definition storeInVectorDB (documentId text : string) (metadata : object)
  : Eff S unit :=
  let chunks := splitText text in
  documents ← map_indexed (λ chunk index,
      id ← randomUUID;
      mret {| doc_id := id;
                 doc_content := chunk;
                 doc_metadata :=
                   <["totalChunks" := VNum (Z.of_nat (length chunks))]>
                     (<["chunkIndex" := VNum (Z.of_nat index)]> metadata) |})
    chunks 0%nat;
  _ ← getVectorStore;
  _ ← upsert documents;
  console_log ("Stored " +:+ pretty (length documents)
               +:+ " chunks for document " +:+ documentId).

(** *** searchVectorStore *)

Definition searchVectorStore (query userId : string) (topK : option Z)
    (filter : option object) : Eff S (list SearchResult) :=
  let topK := default 5 topK in
  _ ← getVectorStore;
  let searchFilter := <["userId" := VStr userId]> (default ∅ filter) in
  results ← search query topK searchFilter;
  mret results.

(** *** deleteFromVectorDB *)

Definition deleteFromVectorDB (documentId : string) : Eff S unit :=
  _ ← getVectorStore;
  try_catch
    (results ← search "" 1000 {["documentId" := VStr documentId]};
     let chunkIds := hit_id <$> results in
     if (0 <? Z.of_nat (length chunkIds)) then
       _ ← delete_ids chunkIds;
       console_log ("Deleted " +:+ pretty (length chunkIds)
                    +:+ " chunks for document " +:+ documentId)
     else mret ())
    (λ error,
       console_error ("Error deleting vectors for document "
                      +:+ documentId +:+ ":") error).
End Service.

(** ** The search page: messages and the submit handler *)

Inductive Role : Type := user | assistant.

#[global] Instance Role_eq_dec : EqDecision Role.
Proof. solve_decision. Defined.

Record Source : Type := mkSource {
  src_id : option string;
  src_content : option string;
  src_score : option Qc;
  src_metadata : option object;
  src_filename : option string;
  src_documentId : option string;
}.

Record Message : Type := mkMessage {
  role : Role;
  msg_content : string;
  msg_sources : option (list Source);
}.

(** What a rejected mutation carries: an [Error] object with its message,
    or any other value. *)
Inductive rejection : Type :=
  | ErrorObject (message : string)
  | OtherValue.

(** A promise that has settled. *)
Inductive settled (A : Type) : Type :=
  | Fulfilled (a : A)
  | Rejected (r : rejection).
Arguments Fulfilled {A} a.
Arguments Rejected {A} r.

(** The answer of [chat.sendMessage]. *)
Record Reply : Type := mkReply {
  reply_message : string;
  reply_sources : option (list Source);
}.

Record Toast : Type := mkToast {
  toast_title : string;
  toast_description : string;
  toast_variant : option string;
}.

(** The state of the page that [handleSubmit] reads and sets. *)
Record PageState : Type := mkPage {
  query : string;
  messages : list Message;
  isStreaming : bool;
  currentChatId : option string;
  toasts : list Toast;        (* toasts shown, oldest first *)
  chatsRefetched : nat;       (* calls of refetchChats *)
}.

(** The string methods of the platform that the pages call: [trim],
    [toLowerCase] and [substring(start, end)]. A string of the program is
    carried by a [string]; what these methods return is the business of
    the platform and is taken as given. *)
Class JsString : Type := {
  trim : string → string;
  toLowerCase : string → string;
  substring : nat → nat → string → string;
}.

(** [array.filter((x, idx) => ...)] *)
Fixpoint filter_indexed {A} (keep : A → Z → bool) (l : list A) (idx : Z) : list A :=
  match l with
  | [] => []
  | x :: rest =>
      if keep x idx then x :: filter_indexed keep rest (idx + 1)
      else filter_indexed keep rest (idx + 1)
  end.

(** [!chatId] holds for [null] and for the empty string. *)
Definition truthy (chatId : option string) : option string :=
  match chatId with
  | Some id => if String.eqb id "" then None else Some id
  | None => None
  end.

Section Page.
Context `{!JsString}.
(** The two mutations of the chat router, as seen by the page. *)
Variable createChat : string → settled string.
Variable sendMessage : string → string → Z → settled Reply.

Definition setMessages (f : list Message → list Message) (st : PageState)
  : PageState :=
  mkPage (query st) (f (messages st)) (isStreaming st) (currentChatId st)
         (toasts st) (chatsRefetched st).

Definition setQuery (q : string) (st : PageState) : PageState :=
  mkPage q (messages st) (isStreaming st) (currentChatId st)
         (toasts st) (chatsRefetched st).

Definition setIsStreaming (b : bool) (st : PageState) : PageState :=
  mkPage (query st) (messages st) b (currentChatId st)
         (toasts st) (chatsRefetched st).

Definition setCurrentChatId (c : option string) (st : PageState) : PageState :=
  mkPage (query st) (messages st) (isStreaming st) c
         (toasts st) (chatsRefetched st).

Definition toast (t : Toast) (st : PageState) : PageState :=
  mkPage (query st) (messages st) (isStreaming st) (currentChatId st)
         (toasts st ++ [t]) (chatsRefetched st).

Definition refetchChats (st : PageState) : PageState :=
  mkPage (query st) (messages st) (isStreaming st) (currentChatId st)
         (toasts st) (Datatypes.S (chatsRefetched st)).

(** The filter of the [catch] branch: drop the element at the last index
    when it is the user message just sent. *)
Definition removeUserMessage (userQuery : string) (prev : list Message)
  : list Message :=
  filter_indexed
    (λ msg idx,
       negb (bool_decide (role msg = user)
             && String.eqb (msg_content msg) userQuery
             && (idx =? Z.of_nat (length prev) - 1)))
    prev 0.

(** The part of [handleSubmit] from "Add user message to UI" on. *)
Definition submitTo (chatId userQuery : string) (st : PageState)
  : settled unit * PageState :=
  let userMessage := mkMessage user userQuery None in
  let st := setMessages (λ prev, prev ++ [userMessage]) st in
  let st := setQuery "" st in
  let st := setIsStreaming true st in
  let st :=
    match sendMessage chatId userQuery 5 with
    | Fulfilled result =>
        let st := setMessages
                    (λ prev, prev ++ [mkMessage assistant (reply_message result)
                                                (reply_sources result)]) st in
        let st := refetchChats st in
        toast (mkToast "Response Generated"
                 ("Found " +:+ pretty (length (default [] (reply_sources result)))
                  +:+ " relevant sources") None) st
    | Rejected error =>
        let st := setMessages (removeUserMessage userQuery) st in
        toast (mkToast "Error"
                 (match error with
                  | ErrorObject message => message
                  | OtherValue => "Failed to send message"
                  end) (Some "destructive")) st
    end in
  (Fulfilled (), setIsStreaming false st).

Definition handleSubmit (st : PageState) : settled unit * PageState :=
  if String.eqb (trim (query st)) "" || isStreaming st then (Fulfilled (), st)
  else
    let userQuery := trim (query st) in
    match truthy (currentChatId st) with
    | Some chatId => submitTo chatId userQuery st
    | None =>
        match createChat (substring 0 50 userQuery) with
        | Rejected r => (Rejected r, st)
        | Fulfilled id =>
            (* onSuccess of the mutation, then the rest of the branch *)
            let st := setCurrentChatId (Some id) st in
            let st := refetchChats st in
            let st := setCurrentChatId (Some id) st in
            let st := setMessages (λ _, []) st in
            submitTo id userQuery st
        end
    end.
End Page.

(** ** The search page: the other handlers *)

(** The effect that follows the chat loaded from the database:
    [currentChat] is the data of the query, when there is any. *)
Definition syncMessages (currentChat : option (list Message)) (st : PageState)
  : PageState :=
  match currentChat with
  | Some dbMessages =>
      if (length (messages st) <? length dbMessages)%nat
         || (length (messages st) =? 0)%nat
      then setMessages (λ _, dbMessages) st
      else st
  | None => st
  end.

Definition handleNewChat (st : PageState) : PageState :=
  let st := setCurrentChatId None st in
  setMessages (λ _, []) st.

(** [handleSubmit] for an open chat in its two halves: what runs before
    the request is awaited, and what runs once the request has settled. *)
Definition beginSubmit (userQuery : string) (st : PageState) : PageState :=
  let userMessage := mkMessage user userQuery None in
  let st := setMessages (λ prev, prev ++ [userMessage]) st in
  let st := setQuery "" st in
  setIsStreaming true st.

Definition settleSubmit (userQuery : string) (answer : settled Reply)
    (st : PageState) : settled unit * PageState :=
  let st :=
    match answer with
    | Fulfilled result =>
        let st := setMessages
                    (λ prev, prev ++ [mkMessage assistant (reply_message result)
                                                (reply_sources result)]) st in
        let st := refetchChats st in
        toast (mkToast "Response Generated"
                 ("Found " +:+ pretty (length (default [] (reply_sources result)))
                  +:+ " relevant sources") None) st
    | Rejected error =>
        let st := setMessages (removeUserMessage userQuery) st in
        toast (mkToast "Error"
                 (match error with
                  | ErrorObject message => message
                  | OtherValue => "Failed to send message"
                  end) (Some "destructive")) st
    end in
  (Fulfilled (), setIsStreaming false st).

(** ** The earlier search page *)

Record LegacyState : Type := mkLegacy {
  l_query : string;
  l_messages : list Message;
  l_isStreaming : bool;
  l_currentChatId : option string;
  l_streamingContent : string;
  l_toasts : list Toast;
  l_chatsRefetched : nat;
}.

Definition l_setMessages (f : list Message → list Message) (st : LegacyState)
  : LegacyState :=
  mkLegacy (l_query st) (f (l_messages st)) (l_isStreaming st)
           (l_currentChatId st) (l_streamingContent st) (l_toasts st)
           (l_chatsRefetched st).

Definition l_setQuery (q : string) (st : LegacyState) : LegacyState :=
  mkLegacy q (l_messages st) (l_isStreaming st) (l_currentChatId st)
           (l_streamingContent st) (l_toasts st) (l_chatsRefetched st).

Definition l_setIsStreaming (b : bool) (st : LegacyState) : LegacyState :=
  mkLegacy (l_query st) (l_messages st) b (l_currentChatId st)
           (l_streamingContent st) (l_toasts st) (l_chatsRefetched st).

Definition l_setStreamingContent (c : string) (st : LegacyState) : LegacyState :=
  mkLegacy (l_query st) (l_messages st) (l_isStreaming st) (l_currentChatId st)
           c (l_toasts st) (l_chatsRefetched st).

Definition l_setCurrentChatId (c : option string) (st : LegacyState)
  : LegacyState :=
  mkLegacy (l_query st) (l_messages st) (l_isStreaming st) c
           (l_streamingContent st) (l_toasts st) (l_chatsRefetched st).

Definition l_toast (t : Toast) (st : LegacyState) : LegacyState :=
  mkLegacy (l_query st) (l_messages st) (l_isStreaming st) (l_currentChatId st)
           (l_streamingContent st) (l_toasts st ++ [t]) (l_chatsRefetched st).

Definition l_refetchChats (st : LegacyState) : LegacyState :=
  mkLegacy (l_query st) (l_messages st) (l_isStreaming st) (l_currentChatId st)
           (l_streamingContent st) (l_toasts st)
           (Datatypes.S (l_chatsRefetched st)).

Section LegacyPage.
Context `{!JsString}.
Variable createChat : string → settled string.
Variable sendMessage : string → string → Z → settled Reply.

(** The handler reads [query] and [currentChatId] as they were when it
    was called: after it has created a chat it still sees none. *)
Definition legacyHandleSubmit (st : LegacyState) : settled unit * LegacyState :=
  if String.eqb (trim (l_query st)) "" || l_isStreaming st then (Fulfilled (), st)
  else
    let query := l_query st in
    match truthy (l_currentChatId st) with
    | None =>
        match createChat (substring 0 50 query) with
        | Rejected r => (Rejected r, st)
        | Fulfilled id =>
            let st := l_setCurrentChatId (Some id) st in
            let st := l_refetchChats st in
            let st := l_setCurrentChatId (Some id) st in
            (Fulfilled (), st)
        end
    | Some chatId =>
        let userMessage := mkMessage user query None in
        let st := l_setMessages (λ prev, prev ++ [userMessage]) st in
        let st := l_setQuery "" st in
        let st := l_setIsStreaming true st in
        let st := l_setStreamingContent "" st in
        let st :=
          match sendMessage chatId query 5 with
          | Fulfilled result =>
              l_setMessages
                (λ prev, prev ++ [mkMessage assistant (reply_message result)
                                            (reply_sources result)]) st
          | Rejected error =>
              l_toast (mkToast "Error"
                         (match error with
                          | ErrorObject message => message
                          | OtherValue => "Failed to send message"
                          end) (Some "destructive")) st
          end in
        let st := l_setIsStreaming false st in
        (Fulfilled (), l_setStreamingContent "" st)
    end.
End LegacyPage.

(** ** The documents page *)

Inductive ViewMode : Type := table | grid.
Inductive FilterStatus : Type :=
  StatusAll | StatusCompleted | StatusProcessing | StatusFailed.
Inductive FilterType : Type := TypeAll | TypePdf | TypeWord | TypeXml | TypeText.
Inductive SortField : Type := ByFilename | BySize | ByCreatedAt | ByStatus.
Inductive SortOrder : Type := asc | desc.

#[global] Instance FilterStatus_eq_dec : EqDecision FilterStatus.
Proof. solve_decision. Defined.
#[global] Instance FilterType_eq_dec : EqDecision FilterType.
Proof. solve_decision. Defined.

(** The string a value of [FilterStatus] is. *)
Definition statusName (s : FilterStatus) : string :=
  match s with
  | StatusAll => "all"
  | StatusCompleted => "completed"
  | StatusProcessing => "processing"
  | StatusFailed => "failed"
  end.

(** A row of [document.list]. *)
Record Document : Type := mkDoc {
  d_id : string;
  d_filename : string;
  d_size : Z;
  d_mimeType : string;
  d_processingStatus : string;
  d_createdAt : string;
}.

Definition ITEMS_PER_PAGE : Z := 10.

(** [String.prototype.includes] *)
Fixpoint includes (s sub : string) : bool :=
  if String.prefix sub s then true
  else match s with
       | String _ rest => includes rest sub
       | EmptyString => false
       end.

(** [Array.prototype.sort] with a comparator, as a stable insertion sort:
    an element moves past those it compares greater than. *)
Fixpoint insertSorted {A} (compare : A → A → Z) (x : A) (l : list A) : list A :=
  match l with
  | [] => [x]
  | y :: rest =>
      if 0 <? compare x y then y :: insertSorted compare x rest
      else x :: l
  end.

Definition sort {A} (compare : A → A → Z) (l : list A) : list A :=
  foldr (insertSorted compare) [] l.

(** [Array.prototype.slice(start, end)] *)
Definition slice {A} (start stop : Z) (l : list A) : list A :=
  let len := Z.of_nat (length l) in
  let k := if start <? 0 then Z.max (len + start) 0 else Z.min start len in
  let final := if stop <? 0 then Z.max (len + stop) 0 else Z.min stop len in
  take (Z.to_nat (final - k)) (drop (Z.to_nat k) l).

(** [Math.ceil(n / d)] for integers [n] and [d > 0]. *)
Definition ceilDiv (n d : Z) : Z := - ((- n) / d).

(** A [Set] of strings: its elements in insertion order. *)
Definition set_has (x : string) (s : list string) : bool := bool_decide (x ∈ s).

Definition set_add (x : string) (s : list string) : list string :=
  if set_has x s then s else s ++ [x].

Definition set_delete (x : string) (s : list string) : list string :=
  filter (λ y, y ≠ x) s.

(** [new Set(array)] *)
Definition set_of_array (l : list string) : list string :=
  foldl (λ s x, set_add x s) [] l.

(** The mime types of a type filter. *)
Definition typeMap (t : FilterType) : option (list string) :=
  match t with
  | TypePdf => Some ["application/pdf"]
  | TypeWord =>
      Some ["application/msword";
            "application/vnd.openxmlformats-officedocument.wordprocessingml.document"]
  | TypeXml => Some ["application/xml"; "text/xml"]
  | TypeText => Some ["text/plain"]
  | TypeAll => None
  end.

Definition getFileTypeIcon (mimeType : string) : string :=
  if includes mimeType "pdf" then "PDF"
  else if includes mimeType "word" || includes mimeType "document" then "DOC"
  else if includes mimeType "xml" then "XML"
  else if includes mimeType "text" then "TXT"
  else "FILE".

Definition getFileTypeColor (mimeType : string) : string :=
  if includes mimeType "pdf" then
    "bg-red-100 text-red-600 dark:bg-red-900/30 dark:text-red-400"
  else if includes mimeType "word" || includes mimeType "document" then
    "bg-blue-100 text-blue-600 dark:bg-blue-900/30 dark:text-blue-400"
  else if includes mimeType "xml" then
    "bg-orange-100 text-orange-600 dark:bg-orange-900/30 dark:text-orange-400"
  else if includes mimeType "text" then
    "bg-gray-100 text-gray-600 dark:bg-gray-900/30 dark:text-gray-400"
  else "bg-slate-100 text-slate-600 dark:bg-slate-900/30 dark:text-slate-400".

Record DocsState : Type := mkDocs {
  viewMode : ViewMode;
  searchQuery : string;
  filterStatus : FilterStatus;
  filterType : FilterType;
  sortField : SortField;
  sortOrder : SortOrder;
  selectedIds : list string;  (* a Set, in insertion order *)
  currentPage : Z;
  deleteDialogOpen : bool;
  deleteTarget : option string;
  shownToasts : list Toast;  (* toasts shown, oldest first *)
  listRefetched : nat;  (* calls of refetch *)
  deleteRequests : list string;  (* ids sent to document.delete, oldest first *)
}.

Definition setSearchQuery (q : string) (st : DocsState) : DocsState :=
  mkDocs (viewMode st) q (filterStatus st) (filterType st) (sortField st)
    (sortOrder st) (selectedIds st) (currentPage st) (deleteDialogOpen st)
    (deleteTarget st) (shownToasts st) (listRefetched st)
    (deleteRequests st).

Definition setFilterStatus (v : FilterStatus) (st : DocsState) : DocsState :=
  mkDocs (viewMode st) (searchQuery st) v (filterType st) (sortField st)
    (sortOrder st) (selectedIds st) (currentPage st) (deleteDialogOpen st)
    (deleteTarget st) (shownToasts st) (listRefetched st)
    (deleteRequests st).

Definition setFilterType (v : FilterType) (st : DocsState) : DocsState :=
  mkDocs (viewMode st) (searchQuery st) (filterStatus st) v (sortField st)
    (sortOrder st) (selectedIds st) (currentPage st) (deleteDialogOpen st)
    (deleteTarget st) (shownToasts st) (listRefetched st)
    (deleteRequests st).

Definition setSortField (v : SortField) (st : DocsState) : DocsState :=
  mkDocs (viewMode st) (searchQuery st) (filterStatus st) (filterType st) v
    (sortOrder st) (selectedIds st) (currentPage st) (deleteDialogOpen st)
    (deleteTarget st) (shownToasts st) (listRefetched st)
    (deleteRequests st).

Definition setSortOrder (v : SortOrder) (st : DocsState) : DocsState :=
  mkDocs (viewMode st) (searchQuery st) (filterStatus st) (filterType st)
    (sortField st) v (selectedIds st) (currentPage st) (deleteDialogOpen st)
    (deleteTarget st) (shownToasts st) (listRefetched st)
    (deleteRequests st).

Definition setSelectedIds (ids : list string) (st : DocsState) : DocsState :=
  mkDocs (viewMode st) (searchQuery st) (filterStatus st) (filterType st)
    (sortField st) (sortOrder st) ids (currentPage st) (deleteDialogOpen st)
    (deleteTarget st) (shownToasts st) (listRefetched st)
    (deleteRequests st).

Definition setCurrentPage (f : Z → Z) (st : DocsState) : DocsState :=
  mkDocs (viewMode st) (searchQuery st) (filterStatus st) (filterType st)
    (sortField st) (sortOrder st) (selectedIds st) (f (currentPage st))
    (deleteDialogOpen st) (deleteTarget st) (shownToasts st)
    (listRefetched st) (deleteRequests st).

Definition setDeleteDialogOpen (b : bool) (st : DocsState) : DocsState :=
  mkDocs (viewMode st) (searchQuery st) (filterStatus st) (filterType st)
    (sortField st) (sortOrder st) (selectedIds st) (currentPage st) b
    (deleteTarget st) (shownToasts st) (listRefetched st)
    (deleteRequests st).

Definition setDeleteTarget (t : option string) (st : DocsState) : DocsState :=
  mkDocs (viewMode st) (searchQuery st) (filterStatus st) (filterType st)
    (sortField st) (sortOrder st) (selectedIds st) (currentPage st)
    (deleteDialogOpen st) t (shownToasts st) (listRefetched st)
    (deleteRequests st).

Definition showToast (t : Toast) (st : DocsState) : DocsState :=
  mkDocs (viewMode st) (searchQuery st) (filterStatus st) (filterType st)
    (sortField st) (sortOrder st) (selectedIds st) (currentPage st)
    (deleteDialogOpen st) (deleteTarget st) (shownToasts st ++ [t])
    (listRefetched st) (deleteRequests st).

Definition refetch (st : DocsState) : DocsState :=
  mkDocs (viewMode st) (searchQuery st) (filterStatus st) (filterType st)
    (sortField st) (sortOrder st) (selectedIds st) (currentPage st)
    (deleteDialogOpen st) (deleteTarget st) (shownToasts st)
    (Datatypes.S (listRefetched st)) (deleteRequests st).

Definition requestDelete (id : string) (st : DocsState) : DocsState :=
  mkDocs (viewMode st) (searchQuery st) (filterStatus st) (filterType st)
    (sortField st) (sortOrder st) (selectedIds st) (currentPage st)
    (deleteDialogOpen st) (deleteTarget st) (shownToasts st)
    (listRefetched st) (deleteRequests st ++ [id]).

Section DocumentsPage.
Context `{!JsString}.
(** [a.localeCompare(b)], and [new Date(s).getTime()] with [None] for the
    [NaN] of a date that does not parse. *)
Variable localeCompare : string → string → Z.
Variable getTime : string → option Z.
(** [document.delete]: [None] when the deletion succeeds, the message of
    the error otherwise. *)
Variable deleteDocument : string → option string.

(** The comparator handed to [sort]; a [NaN] counts as zero. *)
Definition compareDocuments (field : SortField) (order : SortOrder)
    (a b : Document) : Z :=
  let comparison :=
    match field with
    | ByFilename => localeCompare (d_filename a) (d_filename b)
    | BySize => d_size a - d_size b
    | ByCreatedAt =>
        match getTime (d_createdAt a), getTime (d_createdAt b) with
        | Some ta, Some tb => ta - tb
        | _, _ => 0
        end
    | ByStatus => localeCompare (d_processingStatus a) (d_processingStatus b)
    end in
  match order with asc => comparison | desc => - comparison end.

Definition matchesSearch (searchQuery : string) (doc : Document) : bool :=
  includes (toLowerCase (d_filename doc)) (toLowerCase searchQuery).

Definition matchesStatus (status : FilterStatus) (doc : Document) : bool :=
  String.eqb (d_processingStatus doc) (statusName status).

Definition matchesType (type : FilterType) (doc : Document) : bool :=
  match typeMap type with
  | Some mimeTypes => bool_decide (d_mimeType doc ∈ mimeTypes)
  | None => false
  end.

Definition filteredDocuments (documents : option (list Document))
    (st : DocsState) : list Document :=
  match documents with
  | None => []
  | Some documents =>
      let result := documents in
      let result :=
        if String.eqb (searchQuery st) "" then result
        else List.filter (matchesSearch (searchQuery st)) result in
      let result :=
        if decide (filterStatus st = StatusAll) then result
        else List.filter (matchesStatus (filterStatus st)) result in
      let result :=
        if decide (filterType st = TypeAll) then result
        else List.filter (matchesType (filterType st)) result in
      sort (compareDocuments (sortField st) (sortOrder st)) result
  end.

Definition totalPages (documents : option (list Document)) (st : DocsState) : Z :=
  ceilDiv (Z.of_nat (length (filteredDocuments documents st))) ITEMS_PER_PAGE.

Definition paginatedDocuments (documents : option (list Document))
    (st : DocsState) : list Document :=
  slice ((currentPage st - 1) * ITEMS_PER_PAGE)
        (currentPage st * ITEMS_PER_PAGE)
        (filteredDocuments documents st).

(** The handlers of the filter bar: each one goes back to the first page. *)
Definition onSearchChange (value : string) (st : DocsState) : DocsState :=
  setCurrentPage (λ _, 1) (setSearchQuery value st).

Definition onStatusChange (value : FilterStatus) (st : DocsState) : DocsState :=
  setCurrentPage (λ _, 1) (setFilterStatus value st).

Definition onTypeChange (value : FilterType) (st : DocsState) : DocsState :=
  setCurrentPage (λ _, 1) (setFilterType value st).

(** The buttons under the list. *)
Definition previousPage (st : DocsState) : DocsState :=
  setCurrentPage (λ p, Z.max 1 (p - 1)) st.

Definition nextPage (documents : option (list Document)) (st : DocsState)
  : DocsState :=
  setCurrentPage (λ p, Z.min (totalPages documents st) (p + 1)) st.

Definition handleSelectAll (documents : option (list Document)) (st : DocsState)
  : DocsState :=
  let page := paginatedDocuments documents st in
  if (length (selectedIds st) =? length page)%nat then setSelectedIds [] st
  else setSelectedIds (set_of_array (d_id <$> page)) st.

Definition handleSelect (id : string) (st : DocsState) : DocsState :=
  let newSelected := selectedIds st in
  let newSelected :=
    if set_has id newSelected then set_delete id newSelected
    else set_add id newSelected in
  setSelectedIds newSelected st.

Definition handleDelete (id : string) (st : DocsState) : DocsState :=
  setDeleteDialogOpen true (setDeleteTarget (Some id) st).

Definition handleBulkDelete (st : DocsState) : DocsState :=
  setDeleteDialogOpen true (setDeleteTarget None st).

(** [deleteMutation.mutateAsync({ id })] with the callbacks of the
    mutation. *)
Definition deleteMutation (id : string) (st : DocsState)
  : settled unit * DocsState :=
  let st := requestDelete id st in
  match deleteDocument id with
  | None =>
      let st := showToast (mkToast "Success" "Document deleted successfully"
                             None) st in
      let st := refetch st in
      (Fulfilled (), setSelectedIds [] st)
  | Some message =>
      (Rejected (ErrorObject message),
       showToast (mkToast "Error" message (Some "destructive")) st)
  end.

(** [for (const id of ids) await deleteMutation.mutateAsync({ id })] *)
Fixpoint deleteEach (ids : list string) (st : DocsState)
  : settled unit * DocsState :=
  match ids with
  | [] => (Fulfilled (), st)
  | id :: rest =>
      match deleteMutation id st with
      | (Fulfilled _, st) => deleteEach rest st
      | (Rejected r, st) => (Rejected r, st)
      end
  end.

Definition confirmDelete (st : DocsState) : settled unit * DocsState :=
  let deleted :=
    match truthy (deleteTarget st) with
    | Some target => deleteMutation target st
    | None => deleteEach (selectedIds st) st
    end in
  match deleted with
  | (Fulfilled _, st) =>
      (Fulfilled (), setDeleteTarget None (setDeleteDialogOpen false st))
  | (Rejected r, st) => (Rejected r, st)
  end.
End DocumentsPage.

(** ** Notions used to state the properties *)

(** The records [storeInVectorDB] prepares for [chunks] when [draws]
    identifiers have been drawn before: record [i] takes draw [draws + i]. *)
Definition preparedDocuments `{!Crypto} (metadata : object) (chunks : list string)
    (draws : nat) : list VectorDocument :=
  imap (λ i chunk,
          {| doc_id := uuidSource (draws + i);
             doc_content := chunk;
             doc_metadata :=
               <["totalChunks" := VNum (Z.of_nat (length chunks))]>
                 (<["chunkIndex" := VNum (Z.of_nat i)]> metadata) |})
       chunks.

(** The world after [k] more identifiers have been drawn. *)
Definition afterDraws {S} (k : nat) (w : World S) : World S :=
  mkWorld (store w) (connectError w) (uuidDraws w + k) (adapterCalls w) (console w).

(** The number of [upsert] calls in a trace. *)
Definition isUpsert (c : AdapterCall) : bool :=
  match c with CallUpsert _ => true | _ => false end.

Definition upsertCount (calls : list AdapterCall) : nat :=
  length (List.filter isUpsert calls).

(** A vector store honours filters when every hit of a search carries
    each entry of the filter in its metadata. *)
Definition honoursFilter (S : Type) `{!VectorStore S} : Prop :=
  ∀ query topK (flt : object) (s : S) results,
    vs_search query topK flt s = Returned results →
    ∀ r, r ∈ results →
      map_Forall (λ key v, hit_metadata r !! key = Some v) flt.

(** A document passes the filters of the page when it passes each filter
    that is set. *)
Definition passesFilters `{!JsString} (st : DocsState) (doc : Document) : bool :=
  (String.eqb (searchQuery st) "" || matchesSearch (searchQuery st) doc)
  && (bool_decide (filterStatus st = StatusAll)
      || matchesStatus (filterStatus st) doc)
  && (bool_decide (filterType st = TypeAll)
      || matchesType (filterType st) doc).

(** ** Stand-ins for the collaborators, used to run the service *)

(** An in-memory vector store: the stored records, oldest first. A search
    returns the records whose metadata has every entry of the filter, at
    most [topK] of them. *)
Definition MemStore : Type := list VectorDocument.

Definition matches (filter metadata : object) : bool :=
  bool_decide (map_Forall (λ k v, metadata !! k = Some v) filter).

Definition mem_upsert (documents : list VectorDocument) (s : MemStore) : MemStore :=
  filter (λ d, doc_id d ∉ doc_id <$> documents) s ++ documents.

Definition mem_search (topK : Z) (flt : object) (s : MemStore) : list SearchResult :=
  (λ d, mkResult (doc_id d) (doc_content d) 1%Qc (doc_metadata d))
    <$> (take (Z.to_nat topK) (filter (λ d, matches flt (doc_metadata d) = true) s)).

Definition mem_delete (ids : list string) (s : MemStore) : MemStore :=
  filter (λ d, doc_id d ∉ ids) s.

#[global] Instance MemStore_VectorStore : VectorStore MemStore := {
  vs_upsert documents s := (Returned (), mem_upsert documents s);
  vs_search _ topK flt s := Returned (mem_search topK flt s);
  vs_delete ids s := (Returned (), mem_delete ids s);
}.

(** A vector store that cannot be reached: every operation throws. *)
Inductive DownStore : Type := Down.

#[global] Instance DownStore_VectorStore : VectorStore DownStore := {
  vs_upsert _ s := (Thrown "ECONNREFUSED", s);
  vs_search _ _ _ _ := Thrown "ECONNREFUSED";
  vs_delete _ s := (Thrown "ECONNREFUSED", s);
}.

(** Trimming of the white space of ASCII. *)
Fixpoint asciiTrimStart (s : string) : string :=
  match s with
  | String c rest => if Ascii.is_space c then asciiTrimStart rest else s
  | EmptyString => EmptyString
  end.

Fixpoint asciiTrimEnd (s : string) : string :=
  match s with
  | String c rest =>
      match asciiTrimEnd rest with
      | EmptyString => if Ascii.is_space c then EmptyString else String c EmptyString
      | kept => String c kept
      end
  | EmptyString => EmptyString
  end.

Definition asciiTrim (s : string) : string := asciiTrimEnd (asciiTrimStart s).

(** [String.prototype.asciiToLowerCase] on the letters of ASCII. *)
Definition asciiLowerChar (c : Ascii.ascii) : Ascii.ascii :=
  let n := Ascii.nat_of_ascii c in
  if ((65 <=? n) && (n <=? 90))%nat then Ascii.ascii_of_nat (n + 32) else c.

Fixpoint asciiToLowerCase (s : string) : string :=
  match s with
  | String c rest => String (asciiLowerChar c) (asciiToLowerCase rest)
  | EmptyString => EmptyString
  end.

(** A stand-in for the string methods, right on strings of ASCII (and,
    for [substring], when the start is not after the end). *)
Definition asciiStrings : JsString := {|
  trim := asciiTrim;
  toLowerCase := asciiToLowerCase;
  substring start stop s := String.substring start (stop - start) s;
|}.

(** A splitter that cuts the text every [size] characters. *)
Fixpoint chunksOf (fuel size : nat) (text : string) : list string :=
  match fuel with
  | O => []
  | Datatypes.S fuel' =>
      match text with
      | EmptyString => []
      | _ => String.substring 0 size text
             :: chunksOf fuel' size
                  (String.substring size (String.length text - size) text)
      end
  end.

Definition fixedSplitter (size : nat) : TextSplitter := {|
  chunkSize := Z.of_nat size;
  chunkOverlap := 0;
  splitText text := chunksOf (String.length text) size text;
|}.

(** Identifiers numbered in the order they are drawn. *)
Definition countingCrypto : Crypto := {|
  uuidSource n := "uuid-" +:+ pretty n;
|}.

Definition emptyWorld {S} (s : S) : World S := mkWorld s None 0%nat [] [].

(** ** Sample inputs *)

Definition sampleSplitter : TextSplitter := fixedSplitter 4.

Definition chunkOf (id owner document text : string) : VectorDocument :=
  {| doc_id := id;
     doc_content := text;
     doc_metadata :=
       <["userId" := VStr owner]> {["documentId" := VStr document]} |}.

(** A store with two chunks of a document of alice and one of bob. *)
Definition aliceAndBob : World MemStore :=
  emptyWorld [chunkOf "c1" "alice" "doc-a" "annual report";
              chunkOf "c2" "bob" "doc-b" "annual budget";
              chunkOf "c3" "alice" "doc-a" "appendix"].

(** The same store later in the life of the process. *)
Definition aliceAndBobLater : World MemStore :=
  mkWorld (store aliceAndBob) None 7%nat [CallDelete ["c0"]]
          [ConsoleLog "Deleted 1 chunks for document doc-0"].

(** A chat router that creates chats, with a [sendMessage] that always
    fails and one that always answers. *)
Definition createChatOk (title : string) : settled string :=
  Fulfilled ("chat:" +:+ title).

Definition sendMessageDown (chatId message : string) (topK : Z) : settled Reply :=
  Rejected (ErrorObject "generation failed").

Definition sendMessageOk (chatId message : string) (topK : Z) : settled Reply :=
  Fulfilled (mkReply ("answer to " +:+ message) (Some [])).

Definition openChat : PageState :=
  mkPage "  What is X? " [mkMessage user "hello" None;
                          mkMessage assistant "hi" (Some [])]
         false (Some "chat-1") [] 0%nat.

Definition noChat : PageState :=
  mkPage "What is X?" [] false None [] 0%nat.

(** A process in which [getVectorStore] fails. *)
Definition offlineWorld : World MemStore :=
  mkWorld (store aliceAndBob) (Some "no vector store configured") 3%nat [] [].

Definition legacyOpenChat : LegacyState :=
  mkLegacy "What is X?" [mkMessage user "hello" None;
                         mkMessage assistant "hi" (Some [])]
           false (Some "chat-1") "" [] 0%nat.

Definition legacyNoChat : LegacyState :=
  mkLegacy "What is X?" [] false None "" [] 0%nat.

(** A chat router that cannot create chats. *)
Definition createChatDown (title : string) : settled string :=
  Rejected (ErrorObject "cannot create chat").

(** Stand-ins for the comparison of names and for the reading of dates
    (here: a date is its number of milliseconds in decimal). *)
Definition sampleLocaleCompare (a b : string) : Z :=
  match String.compare a b with Lt => -1 | Eq => 0 | Gt => 1 end.

Fixpoint readDecimal (acc : Z) (s : string) : option Z :=
  match s with
  | EmptyString => Some acc
  | String c rest =>
      match Ascii.is_nat c with
      | Some d => readDecimal (10 * acc + Z.of_nat d) rest
      | None => None
      end
  end.

Definition sampleGetTime (s : string) : option Z :=
  match s with EmptyString => None | _ => readDecimal 0 s end.

(** A server on which the document "d3" cannot be deleted. *)
Definition sampleDelete (id : string) : option string :=
  if String.eqb id "d3" then Some "document is locked" else None.

Definition sampleDocuments : list Document :=
  [mkDoc "d1" "Annual Report.pdf" 2048 "application/pdf" "completed" "1700000300";
   mkDoc "d2" "notes.txt" 120 "text/plain" "completed" "1700000100";
   mkDoc "d3" "Budget.docx" 4096
         "application/vnd.openxmlformats-officedocument.wordprocessingml.document"
         "processing" "1700000200";
   mkDoc "d4" "feed.xml" 512 "text/xml" "failed" "1700000400";
   mkDoc "d5" "report-draft.pdf" 1024 "application/pdf" "completed" "1700000500";
   mkDoc "d6" "a.txt" 1 "text/plain" "completed" "1700000600";
   mkDoc "d7" "b.txt" 2 "text/plain" "completed" "1700000700";
   mkDoc "d8" "c.txt" 3 "text/plain" "completed" "1700000800";
   mkDoc "d9" "d.txt" 4 "text/plain" "completed" "1700000900";
   mkDoc "d10" "e.txt" 5 "text/plain" "completed" "1700001000";
   mkDoc "d11" "f.txt" 6 "text/plain" "completed" "1700001100";
   mkDoc "d12" "g.txt" 7 "text/plain" "completed" "1700001200"].

(** The page as it opens, and with a search, a sort and a selection. *)
Definition freshPage : DocsState :=
  mkDocs table "" StatusAll TypeAll ByCreatedAt desc [] 1 false None [] 0%nat [].

Definition searchingReports : DocsState :=
  mkDocs table "REPORT" StatusAll TypeAll BySize asc [] 1 false None [] 0%nat [].

Definition secondPage : DocsState :=
  mkDocs table "" StatusAll TypeAll ByCreatedAt desc ["d12"; "d3"; "d1"] 2
         false None [] 0%nat [].


(** * Properties *)

(** ** Running the steps of the service *)

(** The test [chunkIds.length > 0] on the ids of a list of hits that has a
    first element. *)
Ltac some_ids :=
  cbn [fmap list_fmap length]; rewrite Nat2Z.inj_succ;
  replace (0 <? Z.succ _) with true by (symmetry; apply Z.ltb_lt; lia).

Section ServiceFacts.
Context {S : Type} `{!VectorStore S} `{!TextSplitter} `{!Crypto}.
Implicit Types (w : World S) (metadata : object).

Lemma afterDraws_0 w : afterDraws 0 w = w.
Proof. destruct w. unfold afterDraws. simpl. by rewrite Nat.add_0_r. Qed.

(** The callback of [chunks.map] draws one identifier per chunk and
    changes nothing else. *)
Lemma map_indexed_prepared metadata (total : nat) chunks index w :
  map_indexed (λ chunk index,
      id ← randomUUID;
      mret {| doc_id := id;
              doc_content := chunk;
              doc_metadata :=
                <["totalChunks" := VNum (Z.of_nat total)]>
                  (<["chunkIndex" := VNum (Z.of_nat index)]> metadata) |})
    chunks index w
  = (Returned
       (imap (λ i chunk,
                {| doc_id := uuidSource (uuidDraws w + i);
                   doc_content := chunk;
                   doc_metadata :=
                     <["totalChunks" := VNum (Z.of_nat total)]>
                       (<["chunkIndex" := VNum (Z.of_nat (index + i))]> metadata) |})
             chunks),
     afterDraws (length chunks) w).
Proof.
  revert index w. induction chunks as [|chunk rest IH]; intros index w.
  - simpl. by rewrite afterDraws_0.
  - cbn [map_indexed]. unfold mbind at 1, eff_bind.
    unfold mbind at 1, eff_bind. cbn [randomUUID mret eff_ret].
    unfold mbind at 1, eff_bind. rewrite IH. cbn [mret eff_ret uuidDraws].
    unfold mret, eff_ret, afterDraws.
    cbn [store connectError uuidDraws adapterCalls console length].
    f_equal.
    + f_equal. cbn [imap]. f_equal.
      * by rewrite !Nat.add_0_r.
      * apply imap_ext. intros i x _. cbn.
        by replace (uuidDraws w + Datatypes.S i)%nat
             with (Datatypes.S (uuidDraws w + i)) by lia;
           replace (index + Datatypes.S i)%nat
             with (Datatypes.S (index + i)) by lia.
    + f_equal. lia.
Qed.

(** [storeInVectorDB], step by step. *)
Lemma storeInVectorDB_run documentId text metadata w :
  storeInVectorDB documentId text metadata w =
    let documents :=
      preparedDocuments metadata (splitText text) (uuidDraws w) in
    let w1 := afterDraws (length (splitText text)) w in
    match connectError w with
    | Some e => (Thrown e, w1)
    | None =>
        match vs_upsert documents (store w) with
        | (Returned _, s') =>
            (Returned (),
             mkWorld s' (connectError w) (uuidDraws w1)
               (adapterCalls w ++ [CallUpsert documents])
               (console w ++
                  [ConsoleLog ("Stored " +:+ pretty (length documents)
                               +:+ " chunks for document " +:+ documentId)]))
        | (Thrown e, s') =>
            (Thrown e,
             mkWorld s' (connectError w) (uuidDraws w1)
               (adapterCalls w ++ [CallUpsert documents]) (console w))
        end
    end.
Proof.
  unfold storeInVectorDB, preparedDocuments.
  unfold mbind at 1, eff_bind. rewrite map_indexed_prepared.
  unfold mbind at 1, eff_bind, getVectorStore.
  cbn [afterDraws connectError uuidDraws store adapterCalls console].
  destruct (connectError w) as [e|] eqn:Hc; [done|].
  unfold mbind, eff_bind, upsert, console_log.
  cbn [afterDraws connectError uuidDraws store adapterCalls console].
  destruct (vs_upsert _ (store w)) as [[[]|e] s'];
    cbn [store connectError uuidDraws adapterCalls console]; by rewrite ?Hc.
Qed.

(** [searchVectorStore], step by step. *)
Lemma searchVectorStore_run query userId topK filter w :
  searchVectorStore query userId topK filter w =
    match connectError w with
    | Some e => (Thrown e, w)
    | None =>
        let searchFilter := <["userId" := VStr userId]> (default ∅ filter) in
        (vs_search query (default 5 topK) searchFilter (store w),
         mkWorld (store w) (connectError w) (uuidDraws w)
           (adapterCalls w ++ [CallSearch query (default 5 topK) searchFilter])
           (console w))
    end.
Proof.
  unfold searchVectorStore, mbind, eff_bind, getVectorStore, search.
  destruct (connectError w) eqn:Hc; [done|].
  destruct (vs_search _ _ _ _); unfold mret, eff_ret; by rewrite Hc.
Qed.

(** [deleteFromVectorDB], step by step. *)
Lemma deleteFromVectorDB_run documentId w :
  deleteFromVectorDB documentId w =
    match connectError w with
    | Some e => (Thrown e, w)
    | None =>
        let flt : object := {["documentId" := VStr documentId]} in
        let calls := adapterCalls w ++ [CallSearch "" 1000 flt] in
        let failed e :=
          ConsoleError ("Error deleting vectors for document "
                        +:+ documentId +:+ ":") e in
        match vs_search "" 1000 flt (store w) with
        | Thrown e =>
            (Returned (),
             mkWorld (store w) (connectError w) (uuidDraws w) calls
               (console w ++ [failed e]))
        | Returned results =>
            let chunkIds := hit_id <$> results in
            if 0 <? Z.of_nat (length chunkIds) then
              match vs_delete chunkIds (store w) with
              | (Returned _, s') =>
                  (Returned (),
                   mkWorld s' (connectError w) (uuidDraws w)
                     (calls ++ [CallDelete chunkIds])
                     (console w ++
                        [ConsoleLog ("Deleted " +:+ pretty (length chunkIds)
                                     +:+ " chunks for document "
                                     +:+ documentId)]))
              | (Thrown e, s') =>
                  (Returned (),
                   mkWorld s' (connectError w) (uuidDraws w)
                     (calls ++ [CallDelete chunkIds])
                     (console w ++ [failed e]))
              end
            else
              (Returned (),
               mkWorld (store w) (connectError w) (uuidDraws w) calls (console w))
        end
    end.
Proof.
  unfold deleteFromVectorDB. unfold mbind at 1, eff_bind, getVectorStore.
  destruct (connectError w) as [e|] eqn:Hc; [done|].
  unfold try_catch, search. unfold mbind at 1, eff_bind.
  destruct (vs_search _ _ _ (store w)) as [results|e]; cbn zeta.
  - destruct (0 <? _).
    + unfold mbind, eff_bind, delete_ids, console_log.
      cbn [store connectError uuidDraws adapterCalls console].
      rewrite Hc.
      destruct (vs_delete _ (store w)) as [[[]|e] s'];
        cbn [store connectError uuidDraws adapterCalls console]; by rewrite ?Hc.
    + unfold mret, eff_ret. by rewrite Hc.
  - unfold console_error.
    cbn [store connectError uuidDraws adapterCalls console]. by rewrite Hc.
Qed.

(** *** The prepared batch *)

Lemma length_preparedDocuments metadata chunks draws :
  length (preparedDocuments metadata chunks draws) = length chunks.
Proof. apply length_imap. Qed.

Lemma preparedDocuments_lookup metadata chunks draws i doc :
  preparedDocuments metadata chunks draws !! i = Some doc →
  ∃ chunk, chunks !! i = Some chunk ∧
    doc = {| doc_id := uuidSource (draws + i);
             doc_content := chunk;
             doc_metadata :=
               <["totalChunks" := VNum (Z.of_nat (length chunks))]>
                 (<["chunkIndex" := VNum (Z.of_nat i)]> metadata) |}.
Proof.
  unfold preparedDocuments. rewrite list_lookup_imap.
  destruct (chunks !! i) as [chunk|]; [|done].
  intros [= <-]. by exists chunk.
Qed.

Lemma preparedDocuments_contents metadata chunks draws :
  doc_content <$> preparedDocuments metadata chunks draws = chunks.
Proof.
  unfold preparedDocuments. rewrite fmap_imap.
  rewrite (imap_ext _ (const id)); [|done].
  by rewrite imap_const, list_fmap_id.
Qed.

Lemma preparedDocuments_ids metadata chunks draws :
  doc_id <$> preparedDocuments metadata chunks draws
  = uuidSource <$> seq draws (length chunks).
Proof.
  unfold preparedDocuments. rewrite fmap_imap.
  by rewrite <-(imap_seq chunks uuidSource draws).
Qed.

Lemma preparedDocuments_nil metadata draws :
  preparedDocuments metadata [] draws = [].
Proof. done. Qed.

(** The adapter calls and the outcome of [storeInVectorDB] once the
    handle of the store is obtained. *)
Lemma storeInVectorDB_connected documentId text metadata w :
  connectError w = None →
  let documents :=
    preparedDocuments metadata (splitText text) (uuidDraws w) in
  let run := storeInVectorDB documentId text metadata w in
  adapterCalls run.2 = adapterCalls w ++ [CallUpsert documents]
  ∧ run.1 = (vs_upsert documents (store w)).1
  ∧ connectError run.2 = None
  ∧ uuidDraws run.2 = (uuidDraws w + length (splitText text))%nat.
Proof.
  intros Hc documents run. subst run. rewrite storeInVectorDB_run.
  cbn zeta. rewrite Hc. fold documents.
  by destruct (vs_upsert documents (store w)) as [[[]|e] s'].
Qed.

(** An error of [getVectorStore] itself is thrown before the [try]
    block of [deleteFromVectorDB] is entered. *)
Lemma deleteFromVectorDB_handle_error documentId w e :
  connectError w = Some e →
  deleteFromVectorDB documentId w = (Thrown e, w).
Proof. intros Hc. by rewrite deleteFromVectorDB_run, Hc. Qed.

(** ** Retrieval *)

(** C1. Whatever the query, the user, [topK] and the caller's filter,
    every search that [searchVectorStore] sends to the adapter carries a
    filter whose [userId] entry is the user of the call, also when the
    caller's filter has a [userId] entry of its own; the other entries
    are the caller's. With the handle obtained there is exactly one such
    search, and with an adapter that honours filters every hit returned
    has that user in its metadata. *)
Theorem searchVectorStore_injects_userId query userId topK filter w :
  let run := searchVectorStore query userId topK filter w in
  (∃ new, adapterCalls run.2 = adapterCalls w ++ new ∧
     ∀ c, c ∈ new →
       ∃ flt : object, c = CallSearch query (default 5 topK) flt
         ∧ flt !! "userId" = Some (VStr userId)
         ∧ ∀ key, key ≠ "userId" → flt !! key = default ∅ filter !! key)
  ∧ (connectError w = None →
     adapterCalls run.2 =
       adapterCalls w ++
         [CallSearch query (default 5 topK)
            (<["userId" := VStr userId]> (default ∅ filter))])
  ∧ (honoursFilter S →
     ∀ results, run.1 = Returned results →
       ∀ r, r ∈ results → hit_metadata r !! "userId" = Some (VStr userId)).
Proof.
  intros run. subst run. rewrite searchVectorStore_run.
  destruct (connectError w) as [e|] eqn:Hc; cbn zeta.
  - split; [|split]; [|done|done].
    exists []. split; [by rewrite app_nil_r|]. by intros c ?%elem_of_nil.
  - split; [|split]; [|done|].
    + eexists. split; [done|]. intros c ->%list_elem_of_singleton.
      eexists. split; [done|]. split; [apply lookup_insert_eq|].
      intros key Hkey. by rewrite lookup_insert_ne.
    + intros Hflt results Hres r Hr. cbn [fst] in Hres.
      apply (Hflt _ _ _ _ _ Hres r Hr "userId"), lookup_insert_eq.
Qed.

(** C9. Two calls of [searchVectorStore] with the same query, user,
    [topK] and filter, against the same store and with the handle in the
    same condition, give the same outcome: the same hits in the same
    order or the same error. A call leaves the store as it was, so a
    call repeated right after the first gives the same outcome again. *)
Theorem searchVectorStore_deterministic query userId topK filter w1 w2 :
  store w1 = store w2 →
  connectError w1 = connectError w2 →
  let run1 := searchVectorStore query userId topK filter w1 in
  let run2 := searchVectorStore query userId topK filter w2 in
  run1.1 = run2.1
  ∧ store run1.2 = store w1
  ∧ (searchVectorStore query userId topK filter run1.2).1 = run1.1.
Proof.
  intros Hs Hc run1 run2. subst run1 run2.
  rewrite !searchVectorStore_run. rewrite <-Hc, <-Hs.
  destruct (connectError w1) as [e|] eqn:Hc1; cbn zeta.
  - cbn [fst snd]. by rewrite Hc1.
  - by cbn [fst snd store connectError].
Qed.

(** ** Cascade deletion *)

(** Errors of the adapter are swallowed. With the handle of the store
    obtained, [deleteFromVectorDB] returns normally for every document id,
    whatever the adapter's search and delete do: an error thrown by the
    search, or by the delete, is caught and written to the console with
    the message of the function, and the call still returns. *)
Theorem deleteFromVectorDB_swallows_adapter_errors documentId w :
  connectError w = None →
  let flt : object := {["documentId" := VStr documentId]} in
  let failed e :=
    ConsoleError ("Error deleting vectors for document "
                  +:+ documentId +:+ ":") e in
  ∃ w', deleteFromVectorDB documentId w = (Returned (), w')
    ∧ (∀ e, vs_search "" 1000 flt (store w) = Thrown e →
         console w' = console w ++ [failed e])
    ∧ (∀ results e, vs_search "" 1000 flt (store w) = Returned results →
         results ≠ [] →
         (vs_delete (hit_id <$> results) (store w)).1 = Thrown e →
         console w' = console w ++ [failed e]).
Proof.
  intros Hc flt failed. rewrite deleteFromVectorDB_run, Hc. cbn zeta.
  fold flt. destruct (vs_search "" 1000 flt (store w)) as [results|e].
  - destruct results as [|r results].
    + eexists. split; [done|]. split; [done|]. by intros ? ? [= <-].
    + some_ids.
      destruct (vs_delete _ (store w)) as [[[]|e] s'] eqn:Hd.
      * eexists. split; [done|]. split; [done|].
        intros ? ? [= <-] _. cbn [fmap list_fmap]. by rewrite Hd.
      * eexists. split; [done|]. split; [done|].
        intros ? ? [= <-] _. cbn [fmap list_fmap]. rewrite Hd.
        by intros [= ->].
  - eexists. split; [done|]. split; [|done]. by intros ? [= ->].
Qed.

(** C5. With the handle of the store obtained, [deleteFromVectorDB]
    first sends one search with the empty query, the ceiling 1000 and
    the filter that has the document id alone; when the search returns
    at least one hit it then sends one delete with the ids of the hits,
    in order; when the search returns no hit, or throws, it sends no
    delete. *)
Theorem deleteFromVectorDB_adapter_calls documentId w :
  connectError w = None →
  let flt : object := {["documentId" := VStr documentId]} in
  adapterCalls (deleteFromVectorDB documentId w).2 =
    adapterCalls w ++
      CallSearch "" 1000 flt ::
        match vs_search "" 1000 flt (store w) with
        | Returned results =>
            match hit_id <$> results with
            | [] => []
            | ids => [CallDelete ids]
            end
        | Thrown _ => []
        end.
Proof.
  intros Hc flt. rewrite deleteFromVectorDB_run, Hc. cbn zeta. fold flt.
  destruct (vs_search "" 1000 flt (store w)) as [results|e]; [|done].
  destruct results as [|r results]; [done|].
  some_ids.
  destruct (vs_delete _ (store w)) as [[[]|e] s'];
    cbn [snd adapterCalls]; by rewrite <-app_assoc.
Qed.

(** ** Ingestion *)

(** C10, as the code has it. [storeInVectorDB] has no error branch of its
    own: it throws exactly when [getVectorStore] throws or, the handle
    obtained, when the adapter's upsert throws, and then the same error.
    With the handle obtained it makes one upsert call, whose batch has one
    record per chunk, in the order of the chunks; when the splitter gives
    no chunk the batch is empty, the call is still made, and the function
    returns normally when that upsert does. Without the handle it makes no
    upsert call. *)
Theorem storeInVectorDB_throws_iff_handle_or_upsert_throws
    documentId text metadata w :
  let run := storeInVectorDB documentId text metadata w in
  ∃ documents,
    doc_content <$> documents = splitText text
    ∧ adapterCalls run.2 =
        adapterCalls w ++
          match connectError w with
          | None => [CallUpsert documents]
          | Some _ => []
          end
    ∧ (is_thrown run.1 = true ↔
       connectError w ≠ None
       ∨ connectError w = None
         ∧ is_thrown (vs_upsert documents (store w)).1 = true)
    ∧ (∀ e, connectError w = Some e → run.1 = Thrown e)
    ∧ (connectError w = None → run.1 = (vs_upsert documents (store w)).1)
    ∧ (splitText text = [] →
       documents = []
       ∧ (connectError w = None →
          (vs_upsert [] (store w)).1 = Returned () → run.1 = Returned ())).
Proof.
  intros run. subst run.
  exists (preparedDocuments metadata (splitText text) (uuidDraws w)).
  split; [apply preparedDocuments_contents|].
  rewrite storeInVectorDB_run. cbn zeta.
  destruct (connectError w) as [e|] eqn:Hc.
  - cbn [fst snd adapterCalls afterDraws is_thrown].
    split; [by rewrite app_nil_r|]. split; [split; [by left|done]|].
    split; [by intros ? [= ->]|]. split; [done|].
    intros ->. by rewrite preparedDocuments_nil.
  - destruct (vs_upsert _ (store w)) as [[[]|e] s'] eqn:Hupsert;
      cbn [fst snd adapterCalls is_thrown].
    + split; [done|]. split; [split; [done|by intros [?|[_ ?]]]|].
      split; [done|]. split; [done|].
      intros ->. by rewrite preparedDocuments_nil.
    + split; [done|]. split; [split; [by right|done]|].
      split; [done|]. split; [done|].
      intros Hnil. rewrite Hnil, preparedDocuments_nil in Hupsert.
      split; [by rewrite Hnil, preparedDocuments_nil|].
      intros _. by rewrite Hupsert.
Qed.

(** C3, as the code has it. When the splitter gives no chunk,
    [storeInVectorDB] raises no error of its own: with the handle of the
    store obtained it makes one upsert call with the empty batch, and
    its outcome is the outcome of that upsert. *)
Theorem storeInVectorDB_no_chunks documentId text metadata w :
  splitText text = [] →
  connectError w = None →
  let run := storeInVectorDB documentId text metadata w in
  adapterCalls run.2 = adapterCalls w ++ [CallUpsert []]
  ∧ upsertCount (adapterCalls run.2) = Datatypes.S (upsertCount (adapterCalls w))
  ∧ run.1 = (vs_upsert [] (store w)).1.
Proof.
  intros Hnil Hc run.
  destruct (storeInVectorDB_connected documentId text metadata w Hc)
    as (Hcalls & Hout & _ & _).
  rewrite Hnil, preparedDocuments_nil in Hcalls, Hout.
  split; [exact Hcalls|]. split; [|exact Hout].
  subst run. rewrite Hcalls. unfold upsertCount.
  rewrite List.filter_app, length_app. simpl. lia.
Qed.

(** C6, as the code has it. With the handle of the store obtained, the
    records of the batch are the chunks in order, and the metadata of
    record [i] is the caller's metadata with [chunkIndex] set to [i] and
    [totalChunks] set to the number of chunks; every other key,
    [documentId] and [userId] among them, is there exactly when the
    caller's metadata has it, with the caller's value. *)
Theorem storeInVectorDB_chunk_metadata documentId text metadata w :
  connectError w = None →
  let run := storeInVectorDB documentId text metadata w in
  let chunks := splitText text in
  ∃ documents,
    adapterCalls run.2 = adapterCalls w ++ [CallUpsert documents]
    ∧ length documents = length chunks
    ∧ ∀ (i : nat) doc, documents !! i = Some doc →
        chunks !! i = Some (doc_content doc)
        ∧ doc_metadata doc !! "chunkIndex" = Some (VNum (Z.of_nat i))
        ∧ doc_metadata doc !! "totalChunks"
          = Some (VNum (Z.of_nat (length chunks)))
        ∧ ∀ key, key ≠ "chunkIndex" → key ≠ "totalChunks" →
            doc_metadata doc !! key = metadata !! key.
Proof.
  intros Hc run chunks.
  destruct (storeInVectorDB_connected documentId text metadata w Hc)
    as (Hcalls & _ & _ & _).
  eexists. split; [exact Hcalls|].
  split; [apply length_preparedDocuments|].
  intros i doc (chunk & Hchunk & ->)%preparedDocuments_lookup.
  cbn [doc_content doc_metadata]. split; [done|].
  split; [by rewrite lookup_insert_ne, lookup_insert_eq|].
  split; [by rewrite lookup_insert_eq|].
  intros key H1 H2. by rewrite !lookup_insert_ne.
Qed.

(** C7. When [randomUUID] never returns the same value twice, and with
    the handle of the store obtained: the ids of the records of a call
    are the values [randomUUID] returns during the call, one per chunk in
    order, so they do not depend on the document id or on the metadata;
    they are pairwise different; and ingesting the same document again
    gives ids that are all different from the ids of the first call. *)
Theorem storeInVectorDB_fresh_ids documentId text metadata w :
  Inj (=) (=) uuidSource →
  connectError w = None →
  let run1 := storeInVectorDB documentId text metadata w in
  let run2 := storeInVectorDB documentId text metadata run1.2 in
  ∃ documents1 documents2,
    adapterCalls run1.2 = adapterCalls w ++ [CallUpsert documents1]
    ∧ adapterCalls run2.2 = adapterCalls run1.2 ++ [CallUpsert documents2]
    ∧ doc_id <$> documents1
      = uuidSource <$> seq (uuidDraws w) (length (splitText text))
    ∧ NoDup (doc_id <$> documents1)
    ∧ (∀ id, id ∈ doc_id <$> documents1 → id ∉ doc_id <$> documents2)
    ∧ (∀ documentId' metadata',
         ∃ documents',
           adapterCalls (storeInVectorDB documentId' text metadata' w).2
             = adapterCalls w ++ [CallUpsert documents']
           ∧ doc_id <$> documents' = doc_id <$> documents1).
Proof.
  intros Hinj Hc run1 run2.
  destruct (storeInVectorDB_connected documentId text metadata w Hc)
    as (Hcalls1 & _ & Hc1 & Hdraws1). fold run1 in Hcalls1, Hc1, Hdraws1.
  destruct (storeInVectorDB_connected documentId text metadata run1.2 Hc1)
    as (Hcalls2 & _ & _ & _). fold run2 in Hcalls2.
  eexists _, _. split; [exact Hcalls1|]. split; [exact Hcalls2|].
  rewrite !preparedDocuments_ids, Hdraws1.
  split; [done|]. split; [apply NoDup_fmap_2, NoDup_seq; done|].
  split.
  - intros id (i & -> & Hi)%list_elem_of_fmap (j & Hij & Hj)%list_elem_of_fmap.
    apply Hinj in Hij as ->.
    apply elem_of_seq in Hi, Hj. lia.
  - intros documentId' metadata'.
    destruct (storeInVectorDB_connected documentId' text metadata' w Hc)
      as (Hcalls' & _ & _ & _).
    eexists. split; [exact Hcalls'|]. by rewrite preparedDocuments_ids.
Qed.
End ServiceFacts.

(** ** The stand-ins behave as announced *)

Lemma memStore_honoursFilter : honoursFilter MemStore.
Proof.
  intros query topK flt s results [= <-] r Hr.
  unfold mem_search in Hr.
  apply list_elem_of_fmap in Hr as (d & -> & Hd).
  apply subseteq_take, list_elem_of_filter in Hd as [Hmatch _].
  unfold matches in Hmatch. by apply bool_decide_eq_true in Hmatch.
Qed.

Lemma countingCrypto_inj : Inj (=) (=) (@uuidSource countingCrypto).
Proof.
  intros n m Heq. cbn in Heq. injection Heq as Heq.
  by apply (inj pretty).
Qed.

(** ** The service on sample inputs *)

Section Samples.
#[local] Existing Instance sampleSplitter.
#[local] Existing Instance countingCrypto.

(** The caller asks for bob's chunks as alice, and gets alice's. *)
Example searchVectorStore_sample :
  (searchVectorStore "report" "alice" None
     (Some {["userId" := VStr "bob"]}) aliceAndBob).1
  = Returned
      [mkResult "c1" "annual report" 1
         (<["userId" := VStr "alice"]> {["documentId" := VStr "doc-a"]});
       mkResult "c3" "appendix" 1
         (<["userId" := VStr "alice"]> {["documentId" := VStr "doc-a"]})].
Proof. vm_compute. reflexivity. Qed.

(** Deleting the vectors of alice's document leaves bob's chunk. *)
Example deleteFromVectorDB_sample :
  let run := deleteFromVectorDB "doc-a" aliceAndBob in
  run.1 = Returned ()
  ∧ doc_id <$> store run.2 = ["c2"]
  ∧ console run.2 = [ConsoleLog "Deleted 2 chunks for document doc-a"].
Proof. vm_compute. repeat split. Qed.

(** With the store out of reach the ingestion throws after its upsert,
    and nothing is logged. *)
Example storeInVectorDB_sample_down :
  let run := storeInVectorDB "doc-a" "hello world" ∅ (emptyWorld Down) in
  run.1 = Thrown "ECONNREFUSED"
  ∧ upsertCount (adapterCalls run.2) = 1%nat
  ∧ console run.2 = [].
Proof. vm_compute. repeat split. Qed.

Lemma searchVectorStore_injects_userId_witness :
  let run := searchVectorStore "report" "alice" None
               (Some {["userId" := VStr "bob"]}) aliceAndBob in
  adapterCalls run.2 =
    [CallSearch "report" 5 (<["userId" := VStr "alice"]> {["userId" := VStr "bob"]})]
  ∧ ∀ results, run.1 = Returned results →
      ∀ r, r ∈ results → hit_metadata r !! "userId" = Some (VStr "alice").
Proof.
  intros run.
  destruct (searchVectorStore_injects_userId "report" "alice" None
              (Some {["userId" := VStr "bob"]}) aliceAndBob)
    as (_ & Hcalls & Hhits).
  split.
  - apply Hcalls. reflexivity.
  - apply Hhits, memStore_honoursFilter.
Defined.

Lemma searchVectorStore_deterministic_witness :
  let run1 := searchVectorStore "report" "alice" (Some 2) None aliceAndBob in
  let run2 := searchVectorStore "report" "alice" (Some 2) None aliceAndBobLater in
  run1.1 = run2.1
  ∧ store run1.2 = store aliceAndBob
  ∧ (searchVectorStore "report" "alice" (Some 2) None run1.2).1 = run1.1.
Proof.
  apply (searchVectorStore_deterministic "report" "alice" (Some 2) None
           aliceAndBob aliceAndBobLater); reflexivity.
Defined.

Lemma deleteFromVectorDB_swallows_adapter_errors_sample :
  ∃ w', deleteFromVectorDB "doc-a" (emptyWorld Down) = (Returned (), w')
    ∧ console w' =
        [ConsoleError "Error deleting vectors for document doc-a:" "ECONNREFUSED"].
Proof.
  destruct (deleteFromVectorDB_swallows_adapter_errors "doc-a" (emptyWorld Down) eq_refl)
    as (w' & Hrun & Hsearch & _).
  exists w'. split; [exact Hrun|].
  apply (Hsearch "ECONNREFUSED"). reflexivity.
Defined.

Lemma deleteFromVectorDB_adapter_calls_witness :
  adapterCalls (deleteFromVectorDB "doc-a" aliceAndBob).2 =
    [CallSearch "" 1000 {["documentId" := VStr "doc-a"]};
     CallDelete ["c1"; "c3"]].
Proof.
  rewrite (deleteFromVectorDB_adapter_calls "doc-a" aliceAndBob eq_refl).
  vm_compute. reflexivity.
Defined.

Lemma storeInVectorDB_throws_iff_handle_or_upsert_throws_witness :
  let run := storeInVectorDB "doc-a" "" ∅ aliceAndBob in
  ∃ documents,
    documents = []
    ∧ adapterCalls run.2 = [CallUpsert documents]
    ∧ run.1 = Returned ().
Proof.
  intros run.
  destruct (storeInVectorDB_throws_iff_handle_or_upsert_throws
              "doc-a" "" ∅ aliceAndBob)
    as (documents & _ & Hcalls & _ & _ & _ & Hempty).
  destruct (Hempty eq_refl) as [-> Hout].
  exists []. split; [done|]. split; [exact Hcalls|].
  exact (Hout eq_refl eq_refl).
Defined.

(** C10, as stated, fails when [getVectorStore] throws: [storeInVectorDB]
    throws although no upsert is called, and the upsert of this store
    never throws. *)
Lemma storeInVectorDB_handle_counterexample :
  let run := storeInVectorDB "doc-a" "hello world" ∅ offlineWorld in
  run.1 = Thrown "no vector store configured"
  ∧ upsertCount (adapterCalls run.2) = 0%nat
  ∧ (∀ documents (s : MemStore), is_thrown (vs_upsert documents s).1 = false)
  ∧ ¬ (is_thrown run.1 = true ↔
       ∃ documents, is_thrown (vs_upsert documents (store offlineWorld)).1 = true).
Proof.
  intros run. split; [reflexivity|]. split; [reflexivity|].
  split; [done|]. intros [Hthrows _].
  destruct (Hthrows eq_refl) as [documents Hupsert]. discriminate Hupsert.
Qed.

(** C2. When [getVectorStore] throws, [deleteFromVectorDB] throws: the
    error is not caught, nothing is written to the console and the caller
    sees the error. *)
Lemma deleteFromVectorDB_throws_when_handle_fails :
  let run := deleteFromVectorDB "doc-a" offlineWorld in
  run.1 = Thrown "no vector store configured"
  ∧ run.1 ≠ Returned ()
  ∧ console run.2 = []
  ∧ adapterCalls run.2 = [].
Proof. repeat split. discriminate. Qed.

Lemma storeInVectorDB_no_chunks_witness :
  let run := storeInVectorDB "doc-a" "" ∅ aliceAndBob in
  adapterCalls run.2 = [CallUpsert []]
  ∧ upsertCount (adapterCalls run.2) = 1%nat
  ∧ run.1 = Returned ().
Proof.
  intros run.
  exact (storeInVectorDB_no_chunks "doc-a" "" ∅ aliceAndBob eq_refl eq_refl).
Defined.

Lemma storeInVectorDB_chunk_metadata_witness :
  let metadata : object := {["filename" := VStr "a.txt"]} in
  let run := storeInVectorDB "doc-a" "hello world" metadata (emptyWorld []) in
  ∃ documents,
    adapterCalls run.2 = [CallUpsert documents]
    ∧ length documents = 3%nat
    ∧ ∀ (i : nat) doc, documents !! i = Some doc →
        ["hell"; "o wo"; "rld"] !! i = Some (doc_content doc)
        ∧ doc_metadata doc !! "chunkIndex" = Some (VNum (Z.of_nat i))
        ∧ doc_metadata doc !! "totalChunks" = Some (VNum 3)
        ∧ ∀ key, key ≠ "chunkIndex" → key ≠ "totalChunks" →
            doc_metadata doc !! key = metadata !! key.
Proof.
  intros metadata run.
  exact (storeInVectorDB_chunk_metadata
           "doc-a" "hello world" metadata (emptyWorld []) eq_refl).
Defined.

Lemma storeInVectorDB_fresh_ids_witness :
  let run1 := storeInVectorDB "doc-a" "hello world" ∅ (emptyWorld []) in
  let run2 := storeInVectorDB "doc-a" "hello world" ∅ run1.2 in
  ∃ documents1 documents2,
    adapterCalls run1.2 = [CallUpsert documents1]
    ∧ adapterCalls run2.2 = adapterCalls run1.2 ++ [CallUpsert documents2]
    ∧ doc_id <$> documents1 = ["uuid-0"; "uuid-1"; "uuid-2"]
    ∧ NoDup (doc_id <$> documents1)
    ∧ ∀ id, id ∈ doc_id <$> documents1 → id ∉ doc_id <$> documents2.
Proof.
  intros run1 run2.
  destruct (storeInVectorDB_fresh_ids "doc-a" "hello world" ∅ (emptyWorld [])
              countingCrypto_inj eq_refl)
    as (documents1 & documents2 & H1 & H2 & Hids & Hnodup & Hfresh & _).
  exists documents1, documents2.
  split; [exact H1|]. split; [exact H2|]. split; [exact Hids|].
  split; [exact Hnodup|exact Hfresh].
Defined.

(** C3, as stated, fails on the empty text: the splitter gives
    no chunk, yet the call returns normally and has made one upsert,
    with the empty batch. *)
Lemma storeInVectorDB_empty_text_counterexample :
  let run := storeInVectorDB "doc-a" "" ∅ (emptyWorld ([] : MemStore)) in
  splitText "" = []
  ∧ run.1 = Returned ()
  ∧ adapterCalls run.2 = [CallUpsert []]
  ∧ ¬ ((∃ e, run.1 = Thrown e) ∧ upsertCount (adapterCalls run.2) = 0%nat).
Proof.
  intros run. split; [reflexivity|]. split; [reflexivity|].
  split; [reflexivity|]. intros [[e He] _]. discriminate He.
Qed.

(** C6, as stated, fails on metadata that has neither key: the
    records of the batch then have no [documentId] and no [userId]. *)
Lemma storeInVectorDB_metadata_counterexample :
  let metadata : object := {["filename" := VStr "a.txt"]} in
  let run := storeInVectorDB "doc-a" "hello world" metadata
               (emptyWorld ([] : MemStore)) in
  ∃ documents,
    adapterCalls run.2 = [CallUpsert documents]
    ∧ run.1 = Returned ()
    ∧ ¬ (∀ doc, doc ∈ documents →
           is_Some (doc_metadata doc !! "documentId")
           ∧ is_Some (doc_metadata doc !! "userId"))
    ∧ ∀ doc, doc ∈ documents →
        doc_metadata doc !! "documentId" = None
        ∧ doc_metadata doc !! "userId" = None.
Proof.
  intros metadata run. eexists. split; [reflexivity|]. split; [reflexivity|].
  assert (∀ doc, doc ∈ preparedDocuments metadata ["hell"; "o wo"; "rld"] 0 →
            doc_metadata doc !! "documentId" = None
            ∧ doc_metadata doc !! "userId" = None) as Hnone.
  { intros doc (i & Hi)%list_elem_of_lookup.
    apply preparedDocuments_lookup in Hi as (chunk & _ & ->).
    cbn [doc_metadata]. unfold metadata.
    by rewrite !lookup_insert_ne, !lookup_singleton_ne. }
  split; [|exact Hnone].
  intros Hall.
  destruct (Hall {| doc_id := "uuid-0"; doc_content := "hell";
                    doc_metadata := <["totalChunks" := VNum 3]>
                                      (<["chunkIndex" := VNum 0]> metadata) |})
    as [[v Hv] _]; [apply list_elem_of_here|].
  cbn [doc_metadata] in Hv. unfold metadata in Hv.
  by rewrite !lookup_insert_ne, lookup_singleton_ne in Hv.
Qed.
End Samples.

(** ** The submit handler *)

Section FilterIndexed.
Context {A : Type}.
Implicit Types (keep : A → Z → bool) (l : list A).

(** Elements that the predicate keeps at their index pass through. *)
Lemma filter_indexed_kept_prefix keep l rest idx :
  (∀ i x, l !! i = Some x → keep x (idx + Z.of_nat i) = true) →
  filter_indexed keep (l ++ rest) idx
  = l ++ filter_indexed keep rest (idx + Z.of_nat (length l)).
Proof.
  revert idx. induction l as [|x l IH]; intros idx Hkeep.
  - simpl. by rewrite Z.add_0_r.
  - cbn [app filter_indexed].
    pose proof (Hkeep 0%nat x eq_refl) as Hx.
    cbn [Z.of_nat] in Hx. rewrite Z.add_0_r in Hx. rewrite Hx. f_equal.
    rewrite IH.
    + do 2 f_equal. cbn [length]. lia.
    + intros i y Hi.
      replace (idx + 1 + Z.of_nat i) with (idx + Z.of_nat (Datatypes.S i)) by lia.
      by apply Hkeep.
Qed.
End FilterIndexed.

Section PageFacts.
Context `{!JsString}.
Variable createChat : string → settled string.
Variable sendMessage : string → string → Z → settled Reply.
Implicit Types (st : PageState) (prev : list Message).

(** The filter of the [catch] branch undoes the append of the user
    message. *)
Lemma removeUserMessage_appended userQuery prev :
  removeUserMessage userQuery (prev ++ [mkMessage user userQuery None]) = prev.
Proof.
  unfold removeUserMessage.
  rewrite filter_indexed_kept_prefix.
  - cbn [filter_indexed role msg_content].
    rewrite bool_decide_eq_true_2 by done.
    rewrite String.eqb_refl, length_app. cbn [length andb].
    replace (0 + Z.of_nat (length prev) =? _) with true
      by (symmetry; apply Z.eqb_eq; lia).
    cbn [negb]. by rewrite app_nil_r.
  - intros i x Hi. apply lookup_lt_Some in Hi.
    rewrite length_app. cbn [length].
    replace (0 + Z.of_nat i =? _) with false
      by (symmetry; apply Z.eqb_neq; lia).
    by rewrite andb_false_r.
Qed.


(** What [submitTo] leaves in the message list. *)
Lemma submitTo_messages chatId userQuery st :
  messages (submitTo sendMessage chatId userQuery st).2 =
    match sendMessage chatId userQuery 5 with
    | Fulfilled result =>
        messages st ++ [mkMessage user userQuery None;
                        mkMessage assistant (reply_message result)
                                  (reply_sources result)]
    | Rejected _ => messages st
    end.
Proof.
  unfold submitTo. destruct (sendMessage chatId userQuery 5) as [result|r].
  - cbn. by rewrite <-app_assoc.
  - cbn [snd setIsStreaming toast setMessages setQuery messages].
    apply removeUserMessage_appended.
Qed.

Lemma handleSubmit_guard st :
  isStreaming st = false → trim (query st) ≠ "" →
  String.eqb (trim (query st)) "" || isStreaming st = false.
Proof.
  intros -> Hq. rewrite orb_false_r. by apply String.eqb_neq.
Qed.

Lemma truthy_Some chatId : chatId ≠ "" → truthy (Some chatId) = Some chatId.
Proof. intros Hid. unfold truthy. by rewrite (proj2 (String.eqb_neq _ _) Hid). Qed.


(** When [sendMessage] succeeds the question and its answer are both
    appended, in this order. *)
Lemma handleSubmit_success st chatId result :
  isStreaming st = false →
  trim (query st) ≠ "" →
  currentChatId st = Some chatId →
  chatId ≠ "" →
  sendMessage chatId (trim (query st)) 5 = Fulfilled result →
  messages (handleSubmit createChat sendMessage st).2 =
    messages st ++ [mkMessage user (trim (query st)) None;
                    mkMessage assistant (reply_message result)
                              (reply_sources result)].
Proof.
  intros Hstream Hquery Hchat Hid Hsend. unfold handleSubmit.
  rewrite (handleSubmit_guard st Hstream Hquery), Hchat, (truthy_Some chatId Hid).
  by rewrite submitTo_messages, Hsend.
Qed.
End PageFacts.

(** ** The submit handler on sample inputs *)

Section PageSamples.
#[local] Existing Instance asciiStrings.


Example handleSubmit_new_chat_failure :
  let st' := (handleSubmit createChatOk sendMessageDown noChat).2 in
  messages st' = [] ∧ currentChatId st' = Some "chat:What is X?"
  ∧ toasts st' = [mkToast "Error" "generation failed" (Some "destructive")].
Proof. repeat split. Qed.

Example handleSubmit_answered :
  messages (handleSubmit createChatOk sendMessageOk openChat).2 =
    messages openChat ++
      [mkMessage user "What is X?" None;
       mkMessage assistant "answer to What is X?" (Some [])].
Proof. reflexivity. Qed.

End PageSamples.

(** * Further properties *)

(** ** The vector service when the handle or the adapter fails *)

Section ServiceErrors.
Context {S : Type} `{!VectorStore S} `{!TextSplitter} `{!Crypto}.
Implicit Types (w : World S) (metadata : object).

Lemma upsertCount_app calls more :
  upsertCount (calls ++ more) = (upsertCount calls + upsertCount more)%nat.
Proof. unfold upsertCount. by rewrite List.filter_app, length_app. Qed.

(** X1. When [getVectorStore] throws, each of the three functions throws
    the same error and sends nothing to the adapter: the trace, the
    console and the store stay as they were. [deleteFromVectorDB] does not
    swallow this error, and [storeInVectorDB] has by then drawn one
    identifier per chunk. *)
Theorem getVectorStore_error_propagates e documentId text metadata
    query userId topK filter w :
  connectError w = Some e →
  let stored := storeInVectorDB documentId text metadata w in
  let searched := searchVectorStore query userId topK filter w in
  let deleted := deleteFromVectorDB documentId w in
  (stored.1 = Thrown e
   ∧ adapterCalls stored.2 = adapterCalls w
   ∧ console stored.2 = console w
   ∧ store stored.2 = store w
   ∧ uuidDraws stored.2 = (uuidDraws w + length (splitText text))%nat)
  ∧ searched = (Thrown e, w)
  ∧ deleted = (Thrown e, w).
Proof.
  intros Hc stored searched deleted. subst stored searched deleted.
  rewrite storeInVectorDB_run, searchVectorStore_run, deleteFromVectorDB_run.
  cbn zeta. by rewrite Hc.
Qed.

(** X2. With the handle obtained, [storeInVectorDB] writes its line
    "Stored n chunks for document d", with [n] the number of chunks, after
    an upsert that returned, and writes nothing after an upsert that threw;
    in both cases the store is the one the upsert left, and one identifier
    per chunk has been drawn. *)
Theorem storeInVectorDB_console documentId text metadata w :
  connectError w = None →
  let run := storeInVectorDB documentId text metadata w in
  let documents :=
    preparedDocuments metadata (splitText text) (uuidDraws w) in
  console run.2 =
    console w ++
      match (vs_upsert documents (store w)).1 with
      | Returned _ =>
          [ConsoleLog ("Stored " +:+ pretty (length (splitText text))
                       +:+ " chunks for document " +:+ documentId)]
      | Thrown _ => []
      end
  ∧ store run.2 = (vs_upsert documents (store w)).2
  ∧ uuidDraws run.2 = (uuidDraws w + length (splitText text))%nat.
Proof.
  intros Hc run documents. subst run. rewrite storeInVectorDB_run.
  cbn zeta. rewrite Hc. fold documents.
  destruct (vs_upsert documents (store w)) as [[[]|e] s'];
    cbn [fst snd console store uuidDraws afterDraws].
  - unfold documents. by rewrite length_preparedDocuments.
  - by rewrite app_nil_r.
Qed.

(** X3. [deleteFromVectorDB] never upserts and draws no identifier, and
    the store changes through the delete call alone: when the handle is
    missing, when the search throws and when it returns no hit, the store
    is left as it was; otherwise it is the store the delete left, also
    when the delete threw. *)
Theorem deleteFromVectorDB_frame documentId w :
  let run := deleteFromVectorDB documentId w in
  let flt : object := {["documentId" := VStr documentId]} in
  upsertCount (adapterCalls run.2) = upsertCount (adapterCalls w)
  ∧ uuidDraws run.2 = uuidDraws w
  ∧ store run.2 =
      match connectError w, vs_search "" 1000 flt (store w) with
      | None, Returned (hit :: hits) =>
          (vs_delete (hit_id <$> hit :: hits) (store w)).2
      | _, _ => store w
      end.
Proof.
  intros run flt. subst run. rewrite deleteFromVectorDB_run.
  destruct (connectError w) as [e|]; [done|]. cbn zeta. fold flt.
  destruct (vs_search "" 1000 flt (store w)) as [results|e].
  - destruct results as [|hit hits].
    + cbn [fmap list_fmap length]. change (0 <? Z.of_nat 0) with false.
      cbn [snd adapterCalls uuidDraws store].
      by rewrite upsertCount_app, Nat.add_0_r.
    + some_ids.
      destruct (vs_delete _ (store w)) as [[[]|e] s'];
        cbn [snd fst adapterCalls uuidDraws store];
        by rewrite !upsertCount_app, !Nat.add_0_r.
  - cbn [snd adapterCalls uuidDraws store].
    by rewrite upsertCount_app, Nat.add_0_r.
Qed.
End ServiceErrors.

Section ServiceErrorSamples.
#[local] Existing Instance sampleSplitter.
#[local] Existing Instance countingCrypto.

Lemma getVectorStore_error_propagates_witness :
  let e := "no vector store configured" in
  let stored := storeInVectorDB "doc-a" "hello world" ∅ offlineWorld in
  stored.1 = Thrown e
  ∧ adapterCalls stored.2 = []
  ∧ uuidDraws stored.2 = 6%nat
  ∧ searchVectorStore "report" "alice" None None offlineWorld
    = (Thrown e, offlineWorld)
  ∧ deleteFromVectorDB "doc-a" offlineWorld = (Thrown e, offlineWorld).
Proof.
  intros e stored.
  destruct (getVectorStore_error_propagates e "doc-a" "hello world" ∅
              "report" "alice" None None offlineWorld eq_refl)
    as ((Hout & Hcalls & _ & _ & Hdraws) & Hsearch & Hdelete).
  split; [exact Hout|]. split; [exact Hcalls|]. split; [exact Hdraws|].
  split; [exact Hsearch|exact Hdelete].
Defined.

Lemma storeInVectorDB_console_witness :
  let run := storeInVectorDB "doc-a" "hello world" ∅ aliceAndBob in
  console run.2 = [ConsoleLog "Stored 3 chunks for document doc-a"]
  ∧ length (store run.2) = 6%nat.
Proof.
  intros run.
  destruct (storeInVectorDB_console "doc-a" "hello world" ∅ aliceAndBob eq_refl)
    as (Hconsole & Hstore & _).
  split; [exact Hconsole|]. fold run in Hstore. by rewrite Hstore.
Defined.
End ServiceErrorSamples.

(** ** The search page: the guard, the answers and the sync *)

Section PageMore.
Context `{!JsString}.
Variable createChat : string → settled string.
Variable sendMessage : string → string → Z → settled Reply.
Implicit Types (st : PageState).

(** X4. A query that [trim] leaves empty, and any query while an answer is
    awaited, is ignored: the page stays exactly as it was, whatever the
    chat router would have done. *)
Theorem handleSubmit_ignores_blank_or_busy st :
  trim (query st) = "" ∨ isStreaming st = true →
  handleSubmit createChat sendMessage st = (Fulfilled (), st).
Proof.
  intros [Hblank | Hbusy]; unfold handleSubmit.
  - by rewrite Hblank.
  - by rewrite Hbusy, orb_true_r.
Qed.

(** X5. With no chat open, a submit that goes through first asks for a
    chat under [substring(0, 50)] of the trimmed query; when that
    creation fails the handler rejects with the same reason and the page
    stays as it was: no message is appended, the query is kept, and
    [sendMessage] is not consulted. *)
Theorem handleSubmit_create_fails st r :
  isStreaming st = false →
  trim (query st) ≠ "" →
  truthy (currentChatId st) = None →
  createChat (substring 0 50 (trim (query st))) = Rejected r →
  handleSubmit createChat sendMessage st = (Rejected r, st)
  ∧ ∀ sendMessage',
      handleSubmit createChat sendMessage' st
      = handleSubmit createChat sendMessage st.
Proof.
  intros Hstream Hquery Hchat Hcreate. unfold handleSubmit.
  rewrite (handleSubmit_guard st Hstream Hquery), Hchat.
  by rewrite Hcreate.
Qed.


(** X7. The sync with the chat loaded from the database never shortens
    the list shown: the list after it is the loaded one or the one before,
    and is at least as long as both; it touches nothing but the list, and
    a second sync with the same data changes nothing. *)
Theorem syncMessages_never_shortens currentChat st :
  let st' := syncMessages currentChat st in
  (length (messages st) ≤ length (messages st'))%nat
  ∧ (∀ dbMessages, currentChat = Some dbMessages →
       (messages st' = dbMessages ∨ messages st' = messages st)
       ∧ (length dbMessages ≤ length (messages st'))%nat)
  ∧ syncMessages currentChat st' = st'
  ∧ setMessages (λ _, messages st) st' = st.
Proof.
  intros st'. subst st'. unfold syncMessages.
  destruct currentChat as [dbMessages|]; [|by destruct st].
  destruct (length (messages st) <? length dbMessages)%nat eqn:Hlt.
  - apply Nat.ltb_lt in Hlt. cbn [orb messages setMessages].
    rewrite Nat.ltb_irrefl.
    destruct (length dbMessages =? 0)%nat eqn:H0;
      [apply Nat.eqb_eq in H0; lia|].
    cbn [orb]. split; [lia|]. split; [intros ? [= <-]; by split; [left|]|].
    split; [done|]. by destruct st.
  - apply Nat.ltb_ge in Hlt. cbn [orb].
    destruct (length (messages st) =? 0)%nat eqn:H0.
    + apply Nat.eqb_eq in H0. cbn [messages setMessages].
      rewrite Nat.ltb_irrefl.
      assert (length dbMessages = 0%nat) as Hdb by lia. rewrite Hdb. cbn.
      split; [lia|]. split; [intros ? [= <-]; split; [by left|lia]|].
      split; [done|]. by destruct st.
    + rewrite (proj2 (Nat.ltb_ge _ _) Hlt), H0. cbn [orb].
      split; [done|]. split; [intros ? [= <-]; by split; [right|]|].
      split; [done|]. by destruct st.
Qed.

Lemma syncMessages_longer dbMessages st :
  (length (messages st) < length dbMessages)%nat →
  syncMessages (Some dbMessages) st = setMessages (λ _, dbMessages) st.
Proof.
  intros Hlt. unfold syncMessages.
  by rewrite (proj2 (Nat.ltb_lt _ _) Hlt).
Qed.

(** [submitTo] is its two halves run one after the other. *)
Lemma submitTo_halves chatId userQuery st :
  submitTo sendMessage chatId userQuery st =
    settleSubmit userQuery (sendMessage chatId userQuery 5)
      (beginSubmit userQuery st).
Proof. done. Qed.

(** X8. A sync that lands between the two halves of a submit, with a
    chat that already holds the question and its answer, replaces the list
    shown; the second half then appends the answer once more, so the
    answer is shown twice. *)
Theorem sync_between_halves_repeats_answer chatId userQuery st result :
  sendMessage chatId userQuery 5 = Fulfilled result →
  let question := mkMessage user userQuery None in
  let answer := mkMessage assistant (reply_message result)
                          (reply_sources result) in
  let dbMessages := messages st ++ [question; answer] in
  submitTo sendMessage chatId userQuery st =
    settleSubmit userQuery (Fulfilled result) (beginSubmit userQuery st)
  ∧ messages
      (settleSubmit userQuery (Fulfilled result)
         (syncMessages (Some dbMessages) (beginSubmit userQuery st))).2
    = messages st ++ [question; answer; answer].
Proof.
  intros Hsend question answer dbMessages.
  split; [by rewrite submitTo_halves, Hsend|].
  rewrite syncMessages_longer.
  - cbn. unfold dbMessages. by rewrite <-app_assoc.
  - unfold dbMessages, beginSubmit. cbn. rewrite !length_app. cbn. lia.
Qed.

(** X9. After "New Conversation" a submit that goes through always
    creates a chat, and the list shown is the question and its answer
    alone, whatever chat and messages were shown before. *)
Theorem handleNewChat_then_submit st chatId result :
  isStreaming st = false →
  trim (query st) ≠ "" →
  let userQuery := trim (query st) in
  createChat (substring 0 50 userQuery) = Fulfilled chatId →
  sendMessage chatId userQuery 5 = Fulfilled result →
  let st' := (handleSubmit createChat sendMessage (handleNewChat st)).2 in
  messages st' =
    [mkMessage user userQuery None;
     mkMessage assistant (reply_message result) (reply_sources result)]
  ∧ currentChatId st' = Some chatId.
Proof.
  intros Hstream Hquery userQuery Hcreate Hsend st'. subst st'.
  unfold handleSubmit.
  change (query (handleNewChat st)) with (query st).
  change (isStreaming (handleNewChat st)) with (isStreaming st).
  rewrite (handleSubmit_guard st Hstream Hquery). fold userQuery.
  cbn [handleNewChat currentChatId setMessages setCurrentChatId truthy].
  rewrite Hcreate, submitTo_messages, Hsend. split; [done|].
  unfold submitTo. by rewrite Hsend.
Qed.
End PageMore.

(** ** The earlier search page *)

Section LegacyFacts.
Context `{!JsString}.
Variable createChat : string → settled string.
Variable sendMessage : string → string → Z → settled Reply.
Implicit Types (st : LegacyState).

(** X10. On the earlier page, with no chat open, a submit creates the
    chat and stops there: the question is not sent, whatever [sendMessage]
    would answer, no message is appended and the query stays in the
    input. *)
Theorem legacyHandleSubmit_first_question_not_sent st chatId :
  l_isStreaming st = false →
  trim (l_query st) ≠ "" →
  truthy (l_currentChatId st) = None →
  createChat (substring 0 50 (l_query st)) = Fulfilled chatId →
  let st' := (legacyHandleSubmit createChat sendMessage st).2 in
  l_messages st' = l_messages st
  ∧ l_query st' = l_query st
  ∧ l_currentChatId st' = Some chatId
  ∧ ∀ sendMessage',
      legacyHandleSubmit createChat sendMessage' st
      = legacyHandleSubmit createChat sendMessage st.
Proof.
  intros Hstream Hquery Hchat Hcreate st'. subst st'.
  unfold legacyHandleSubmit.
  rewrite Hstream, orb_false_r, (proj2 (String.eqb_neq _ _) Hquery).
  by rewrite Hchat, Hcreate.
Qed.

(** X11. On the earlier page, when [sendMessage] fails for an open chat,
    the question stays in the list: the list is one message longer than
    before the call and ends with the question, without an answer. *)
Theorem legacyHandleSubmit_failure_keeps_question st chatId r :
  l_isStreaming st = false →
  trim (l_query st) ≠ "" →
  truthy (l_currentChatId st) = Some chatId →
  sendMessage chatId (l_query st) 5 = Rejected r →
  let st' := (legacyHandleSubmit createChat sendMessage st).2 in
  l_messages st' = l_messages st ++ [mkMessage user (l_query st) None]
  ∧ length (l_messages st') = Datatypes.S (length (l_messages st))
  ∧ l_isStreaming st' = false
  ∧ l_query st' = "".
Proof.
  intros Hstream Hquery Hchat Hsend st'. subst st'.
  unfold legacyHandleSubmit.
  rewrite Hstream, orb_false_r, (proj2 (String.eqb_neq _ _) Hquery).
  rewrite Hchat, Hsend. cbn. rewrite length_app. cbn. repeat split. lia.
Qed.
End LegacyFacts.

(** ** The documents page: filters and order *)

Section SortFacts.
Context {A : Type}.
Implicit Types (compare : A → A → Z) (l : list A).

Lemma insertSorted_Permutation compare x l :
  insertSorted compare x l ≡ₚ x :: l.
Proof.
  induction l as [|y l IH]; [done|]. cbn [insertSorted].
  destruct (0 <? compare x y); [|done].
  rewrite IH. apply Permutation_swap.
Qed.

Lemma sort_Permutation compare l : sort compare l ≡ₚ l.
Proof.
  induction l as [|x l IH]; [done|]. cbn [sort foldr].
  rewrite insertSorted_Permutation. by f_equiv.
Qed.

(** With a comparator that is consistent on the elements that satisfy
    [P], a list of such elements comes out in order. *)
Lemma sort_StronglySorted compare (P : A → Prop) l :
  (∀ x y, P x → P y → 0 < compare x y → compare y x ≤ 0) →
  (∀ x y z, P x → P y → P z →
     compare x y ≤ 0 → compare y z ≤ 0 → compare x z ≤ 0) →
  Forall P l →
  StronglySorted (λ a b, compare a b ≤ 0) (sort compare l).
Proof.
  intros Hanti Htrans HP.
  induction HP as [|x l Hx HP IH]; [constructor|].
  cbn [sort foldr]. fold (sort compare l).
  assert (Forall P (sort compare l)) as HPs
    by (by rewrite sort_Permutation).
  revert IH HPs. generalize (sort compare l). clear l HP.
  intros l Hsorted HPl.
  induction Hsorted as [|y l Hl IH Hy]; [repeat constructor|].
  apply Forall_cons in HPl as [Py HPl]. cbn [insertSorted].
  destruct (0 <? compare x y) eqn:Hxy.
  - apply Z.ltb_lt in Hxy. constructor; [by apply IH|].
    rewrite insertSorted_Permutation. constructor; [by apply Hanti|done].
  - apply Z.ltb_ge in Hxy. constructor; [by constructor|].
    constructor; [done|].
    rewrite Forall_forall in Hy, HPl. apply Forall_forall. intros z Hz.
    by apply (Htrans x y z); auto.
Qed.
End SortFacts.

Lemma filter_filter_andb {A} (f g : A → bool) (l : list A) :
  List.filter f (List.filter g l) = List.filter (λ x, g x && f x) l.
Proof.
  induction l as [|x l IH]; [done|]. cbn [List.filter].
  destruct (g x); cbn [List.filter andb]; [|done].
  by destruct (f x); rewrite IH.
Qed.

Lemma filter_true {A} (l : list A) : List.filter (λ _, true) l = l.
Proof. induction l as [|x l IH]; [done|]. cbn. by rewrite IH. Qed.

Lemma filter_unless {A} (b : bool) (f : A → bool) (l : list A) :
  (if b then l else List.filter f l) = List.filter (λ x, b || f x) l.
Proof. destruct b; cbn [orb]; [by rewrite filter_true|done]. Qed.

Lemma filter_unless_decide {A} (P : Prop) `{!Decision P} (f : A → bool)
    (l : list A) :
  (if decide P then l else List.filter f l)
  = List.filter (λ x, bool_decide P || f x) l.
Proof.
  destruct (decide P) as [HP|HP].
  - rewrite <-(filter_true l) at 1. apply List.filter_ext. intros x.
    by rewrite (bool_decide_eq_true_2 _ HP).
  - apply List.filter_ext. intros x. by rewrite (bool_decide_eq_false_2 _ HP).
Qed.

Lemma StronglySorted_weaken {A} (R1 R2 : A → A → Prop) (l : list A) :
  (∀ a b, R1 a b → R2 a b) → StronglySorted R1 l → StronglySorted R2 l.
Proof.
  intros Himpl Hsorted. induction Hsorted as [|x l Hl IH Hx]; constructor;
    [done|]. eapply Forall_impl; [exact Hx|]. intros b. apply Himpl.
Qed.

Section DocumentsFacts.
Context `{!JsString}.
Variable localeCompare : string → string → Z.
Variable getTime : string → option Z.
Implicit Types (st : DocsState) (documents : list Document).

Lemma filteredDocuments_filter documents st :
  filteredDocuments localeCompare getTime (Some documents) st =
    sort (compareDocuments localeCompare getTime (sortField st) (sortOrder st))
         (List.filter (passesFilters st) documents).
Proof.
  unfold filteredDocuments. cbn zeta. f_equal.
  rewrite (filter_unless_decide (filterType st = TypeAll)).
  rewrite (filter_unless_decide (filterStatus st = StatusAll)).
  rewrite (filter_unless (String.eqb (searchQuery st) "")).
  rewrite !filter_filter_andb. apply List.filter_ext. intros doc.
  unfold passesFilters. by rewrite andb_assoc.
Qed.

(** X12. The list shown holds exactly the loaded documents that pass the
    filters that are set, each as often as it was loaded, whatever the
    order asked for: a document is shown if and only if it is loaded, its
    name in lower case contains the search text in lower case (when there
    is one), its status is the one chosen (unless "all") and its mime type is
    one of the chosen type (unless "all"). With no filter set every
    document is shown, and before the documents are loaded none is. *)
Theorem filteredDocuments_exactly_the_matches documents st :
  let shown := filteredDocuments localeCompare getTime (Some documents) st in
  shown ≡ₚ List.filter (passesFilters st) documents
  ∧ (∀ doc, doc ∈ shown ↔
       doc ∈ documents
       ∧ (searchQuery st = ""
          ∨ includes (toLowerCase (d_filename doc))
                     (toLowerCase (searchQuery st)) = true)
       ∧ (filterStatus st = StatusAll
          ∨ d_processingStatus doc = statusName (filterStatus st))
       ∧ (filterType st = TypeAll
          ∨ ∃ mimeTypes, typeMap (filterType st) = Some mimeTypes
                         ∧ d_mimeType doc ∈ mimeTypes))
  ∧ (searchQuery st = "" → filterStatus st = StatusAll →
     filterType st = TypeAll → shown ≡ₚ documents)
  ∧ filteredDocuments localeCompare getTime None st = [].
Proof.
  intros shown. subst shown. rewrite filteredDocuments_filter.
  split; [apply sort_Permutation|]. split; [|split; [|done]].
  - intros doc. rewrite sort_Permutation, list_elem_of_In, List.filter_In.
    rewrite <-list_elem_of_In. unfold passesFilters, matchesSearch,
      matchesStatus, matchesType.
    rewrite !andb_true_iff, !orb_true_iff, String.eqb_eq, String.eqb_eq,
      !bool_decide_eq_true.
    split.
    + intros (Hin & (Hq & Hs) & Ht). repeat split; [done|done|done|].
      destruct Ht as [Ht|Ht]; [by left|right].
      destruct (typeMap (filterType st)) as [mimeTypes|]; [|done].
      exists mimeTypes. split; [done|]. by apply bool_decide_eq_true in Ht.
    + intros (Hin & Hq & Hs & Ht). repeat split; [done|done|done|].
      destruct Ht as [Ht|(mimeTypes & -> & Ht)]; [by left|right].
      by apply bool_decide_eq_true.
  - intros Hq Hs Ht. rewrite sort_Permutation.
    rewrite (List.filter_ext (passesFilters st) (λ _, true)), filter_true;
      [done|].
    intros doc. unfold passesFilters. rewrite Hq, Hs, Ht. done.
Qed.

(** X14. Sorted by size, the list shown has its sizes in order, smallest
    first or largest first as asked; sorted by date, when the dates of the
    loaded documents all parse, it has its dates in order, oldest first or
    newest first. *)
Theorem filteredDocuments_in_order documents st :
  let shown := filteredDocuments localeCompare getTime (Some documents) st in
  let earlier a b :=
    ∀ ta tb, getTime (d_createdAt a) = Some ta →
             getTime (d_createdAt b) = Some tb → ta ≤ tb in
  (sortField st = BySize →
     match sortOrder st with
     | asc => StronglySorted (λ a b, d_size a ≤ d_size b) shown
     | desc => StronglySorted (λ a b, d_size b ≤ d_size a) shown
     end)
  ∧ (sortField st = ByCreatedAt →
     Forall (λ doc, is_Some (getTime (d_createdAt doc))) documents →
     match sortOrder st with
     | asc => StronglySorted earlier shown
     | desc => StronglySorted (flip earlier) shown
     end).
Proof.
  intros shown earlier. subst shown. rewrite filteredDocuments_filter. split.
  - intros ->.
    destruct (sortOrder st);
      (eapply StronglySorted_weaken;
         [|apply (sort_StronglySorted _ (λ _, True));
             [| |by apply Forall_forall]]);
      cbn; intros; lia.
  - intros -> Hparse.
    assert (Forall (λ doc, is_Some (getTime (d_createdAt doc)))
              (List.filter (passesFilters st) documents)) as Hparse'.
    { apply Forall_forall. intros doc Hdoc. rewrite Forall_forall in Hparse.
      apply Hparse. apply list_elem_of_In, List.filter_In in Hdoc as [Hdoc _].
      by apply list_elem_of_In. }
    destruct (sortOrder st);
      (eapply StronglySorted_weaken;
         [|apply (sort_StronglySorted _
                    (λ doc, is_Some (getTime (d_createdAt doc))));
             [| |exact Hparse']]);
      unfold earlier, flip; cbn [compareDocuments].
    + intros a b Hab ta tb Ha Hb. rewrite Ha, Hb in Hab. lia.
    + intros a b [ta ->] [tb ->]. lia.
    + intros a b c [ta ->] [tb ->] [tc ->]. lia.
    + intros a b Hab tb ta Hb Ha. rewrite Ha, Hb in Hab. lia.
    + intros a b [ta ->] [tb ->]. lia.
    + intros a b c [ta ->] [tb ->] [tc ->]. lia.
Qed.
End DocumentsFacts.

(** ** The documents page: pages *)

Section SliceFacts.
Context {A : Type}.
Implicit Types (l : list A).

Lemma take_min_length n l : take (Nat.min n (length l)) l = take n l.
Proof.
  destruct (decide (n ≤ length l)%nat).
  - by rewrite Nat.min_l.
  - rewrite Nat.min_r by lia. by rewrite !take_ge by lia.
Qed.

(** A page is ten elements from where the pages before it end. *)
Lemma slice_page (p : Z) l :
  1 ≤ p →
  slice ((p - 1) * ITEMS_PER_PAGE) (p * ITEMS_PER_PAGE) l
  = take 10 (drop (10 * (Z.to_nat p - 1)) l).
Proof.
  intros Hp. unfold slice, ITEMS_PER_PAGE.
  replace ((p - 1) * 10 <? 0) with false by (symmetry; apply Z.ltb_ge; lia).
  replace (p * 10 <? 0) with false by (symmetry; apply Z.ltb_ge; lia).
  destruct (decide (Z.of_nat (length l) ≤ (p - 1) * 10)) as [Hlen|Hlen].
  - rewrite !Z.min_r by lia. rewrite Z.sub_diag. cbn [Z.to_nat take].
    by rewrite (drop_ge l (10 * _)), take_nil by lia.
  - rewrite (Z.min_l ((p - 1) * 10)) by lia.
    replace (Z.to_nat ((p - 1) * 10)) with (10 * (Z.to_nat p - 1))%nat by lia.
    rewrite <-(take_min_length 10). rewrite length_drop. f_equal. lia.
Qed.

Lemma pages_take (k : nat) l :
  mjoin ((λ i, take 10 (drop (10 * i) l)) <$> seq 0 k) = take (10 * k) l.
Proof.
  induction k as [|k IH]; [done|].
  rewrite seq_S, fmap_app, join_app, IH. cbn [fmap list_fmap mjoin list_join].
  rewrite app_nil_r, take_take_drop. f_equal. lia.
Qed.
End SliceFacts.

Lemma ceilDiv_bounds n :
  0 ≤ n →
  n ≤ 10 * ceilDiv n ITEMS_PER_PAGE < n + 10.
Proof.
  intros Hn. unfold ceilDiv, ITEMS_PER_PAGE.
  pose proof (Z.div_mod (- n) 10 ltac:(done)) as Hdiv.
  pose proof (Z.mod_pos_bound (- n) 10 ltac:(done)) as Hmod. lia.
Qed.

Section PagingFacts.
Context `{!JsString}.
Variable localeCompare : string → string → Z.
Variable getTime : string → option Z.
Implicit Types (st : DocsState) (documents : option (list Document)).

Lemma filteredDocuments_setCurrentPage documents f st :
  filteredDocuments localeCompare getTime documents (setCurrentPage f st)
  = filteredDocuments localeCompare getTime documents st.
Proof. done. Qed.

(** X15. The pages from 1 to the number of pages, one after the other,
    are the list shown: every document is on one page and the pages keep
    the order of the list. *)
Theorem pages_partition_the_list documents st :
  let page p :=
    paginatedDocuments localeCompare getTime documents
      (setCurrentPage (λ _, p) st) in
  mjoin (page <$> seqZ 1 (totalPages localeCompare getTime documents st))
  = filteredDocuments localeCompare getTime documents st.
Proof.
  intros page. subst page. unfold totalPages, paginatedDocuments.
  set (shown := filteredDocuments localeCompare getTime documents st).
  pose proof (ceilDiv_bounds (Z.of_nat (length shown)) ltac:(lia)) as Hpages.
  unfold seqZ. rewrite <-list_fmap_compose.
  erewrite list_fmap_ext.
  - rewrite (pages_take _ shown). apply take_ge. lia.
  - intros i x Hi. cbn. rewrite filteredDocuments_setCurrentPage.
    fold shown. rewrite slice_page by lia. do 2 f_equal. lia.
Qed.

(** X16. On page [p >= 1] there are as many documents as the footer
    tells, from number [(p - 1) * 10 + 1] to number [min (p * 10) n] of the
    [n] shown: never more than ten, at least one when [p] is at most the
    number of pages, and none when [p] is beyond it, also when documents
    are shown on earlier pages. *)
Theorem page_length documents st :
  1 ≤ currentPage st →
  let p := currentPage st in
  let n := Z.of_nat (length (filteredDocuments localeCompare getTime documents st)) in
  let page := paginatedDocuments localeCompare getTime documents st in
  let first := (p - 1) * ITEMS_PER_PAGE + 1 in
  let last := Z.min (p * ITEMS_PER_PAGE) n in
  Z.of_nat (length page) = Z.max 0 (last - first + 1)
  ∧ Z.of_nat (length page) ≤ ITEMS_PER_PAGE
  ∧ (p ≤ totalPages localeCompare getTime documents st →
     1 ≤ Z.of_nat (length page))
  ∧ (totalPages localeCompare getTime documents st < p → page = []).
Proof.
  intros Hp p n page first last. subst page. unfold paginatedDocuments.
  fold p. rewrite slice_page by done.
  unfold totalPages. fold n.
  pose proof (ceilDiv_bounds n ltac:(lia)) as Hpages.
  assert (Z.of_nat (length (take 10
            (drop (10 * (Z.to_nat p - 1))
               (filteredDocuments localeCompare getTime documents st))))
          = Z.max 0 (last - first + 1)) as Hlen.
  { rewrite length_take, length_drop. unfold last, first, ITEMS_PER_PAGE.
    subst n. lia. }
  split; [exact Hlen|]. rewrite Hlen.
  unfold last, first, ITEMS_PER_PAGE in *.
  split; [lia|]. split; [lia|].
  intros Hbeyond. apply length_zero_iff_nil. lia.
Qed.

(** X17. The buttons under the list keep the page between 1 and the
    number of pages once it is there, and leave the filters alone; a
    change of the search text, of the status or of the type goes to page
    1. *)
Theorem navigation_stays_within_pages documents st :
  let pages st := totalPages localeCompare getTime documents st in
  1 ≤ currentPage st ≤ pages st →
  (1 ≤ currentPage (previousPage st) ≤ pages (previousPage st)
   ∧ currentPage (previousPage st) = Z.max 1 (currentPage st - 1))
  ∧ (1 ≤ currentPage (nextPage localeCompare getTime documents st)
       ≤ pages (nextPage localeCompare getTime documents st)
     ∧ currentPage (nextPage localeCompare getTime documents st)
       = Z.min (pages st) (currentPage st + 1))
  ∧ (∀ value, currentPage (onSearchChange value st) = 1)
  ∧ (∀ value, currentPage (onStatusChange value st) = 1)
  ∧ (∀ value, currentPage (onTypeChange value st) = 1).
Proof.
  intros pages Hvalid. subst pages. cbn beta in *.
  unfold previousPage, nextPage, totalPages in *.
  rewrite !filteredDocuments_setCurrentPage.
  cbn [currentPage setCurrentPage]. repeat split; lia.
Qed.
End PagingFacts.

(** ** The documents page: the selection *)

Lemma elem_of_set_delete x id (s : list string) :
  x ∈ set_delete id s ↔ x ∈ s ∧ x ≠ id.
Proof. unfold set_delete. rewrite list_elem_of_filter. tauto. Qed.

Lemma elem_of_set_add x id (s : list string) :
  x ∈ set_add id s ↔ x ∈ s ∨ x = id.
Proof.
  unfold set_add, set_has. case_bool_decide as Hid.
  - split; [by left|]. by intros [?| ->].
  - rewrite elem_of_app, list_elem_of_singleton. tauto.
Qed.

Lemma NoDup_set_delete id (s : list string) : NoDup s → NoDup (set_delete id s).
Proof. apply NoDup_filter. Qed.

Lemma NoDup_set_add id (s : list string) : NoDup s → NoDup (set_add id s).
Proof.
  intros Hs. unfold set_add, set_has. case_bool_decide as Hid; [done|].
  apply NoDup_app. split; [done|]. split; [|apply NoDup_singleton].
  intros x Hx ->%list_elem_of_singleton. done.
Qed.

(** [new Set(array)] of an array without repetition is the array. *)
Lemma set_of_array_NoDup (l : list string) : NoDup l → set_of_array l = l.
Proof.
  unfold set_of_array.
  enough (∀ acc, NoDup (acc ++ l) →
            foldl (λ s x, set_add x s) acc l = acc ++ l) as Hgen
    by (intros Hl; by apply (Hgen [])).
  induction l as [|x l IH]; intros acc Hnodup; cbn [foldl].
  - by rewrite app_nil_r.
  - replace (acc ++ x :: l) with ((acc ++ [x]) ++ l) in *
      by (by rewrite <-app_assoc).
    rewrite <-IH by done. f_equal. unfold set_add, set_has.
    rewrite bool_decide_eq_false_2; [done|].
    apply NoDup_app in Hnodup as [Hnodup _].
    apply NoDup_app in Hnodup as (_ & Hfresh & _).
    intros Hx. apply (Hfresh x Hx). apply list_elem_of_here.
Qed.

(** X18. A click on the checkbox of a row selects the document when it
    was not selected and takes it out when it was; the other documents
    stay as they were, no id is selected twice, and a second click on the
    same row brings back the same set of selected ids. *)
Theorem handleSelect_toggles id (st : DocsState) :
  NoDup (selectedIds st) →
  let st' := handleSelect id st in
  (id ∈ selectedIds st' ↔ id ∉ selectedIds st)
  ∧ (∀ x, x ≠ id → x ∈ selectedIds st' ↔ x ∈ selectedIds st)
  ∧ NoDup (selectedIds st')
  ∧ selectedIds (handleSelect id st') ≡ₚ selectedIds st.
Proof.
  intros Hnodup st'.
  assert (∀ s, NoDup s →
            let s' := if set_has id s then set_delete id s else set_add id s in
            (id ∈ s' ↔ id ∉ s)
            ∧ (∀ x, x ≠ id → x ∈ s' ↔ x ∈ s) ∧ NoDup s') as Hstep.
  { intros s Hs. cbn zeta. destruct (set_has id s) eqn:Hid;
      unfold set_has in Hid;
      [apply bool_decide_eq_true in Hid|apply bool_decide_eq_false in Hid].
    - split; [|split].
      + rewrite elem_of_set_delete. tauto.
      + intros x Hx. rewrite elem_of_set_delete. tauto.
      + by apply NoDup_set_delete.
    - split; [|split].
      + rewrite elem_of_set_add. tauto.
      + intros x Hx. rewrite elem_of_set_add. tauto.
      + by apply NoDup_set_add. }
  destruct (Hstep (selectedIds st) Hnodup) as (Hid & Hother & Hnodup').
  split; [exact Hid|]. split; [exact Hother|]. split; [exact Hnodup'|].
  destruct (Hstep (selectedIds st') Hnodup') as (Hid2 & Hother2 & Hnodup2).
  apply NoDup_Permutation; [exact Hnodup2|exact Hnodup|].
  intros x. destruct (decide (x = id)) as [->|Hx].
  - etransitivity; [exact Hid2|]. split.
    + intros Hnot. destruct (decide (id ∈ selectedIds st)) as [|Hno]; [done|].
      by apply Hid in Hno.
    + intros Hin Hin'. by apply Hid in Hin'.
  - etransitivity; [exact (Hother2 x Hx)|exact (Hother x Hx)].
Qed.

Section SelectionFacts.
Context `{!JsString}.
Variable localeCompare : string → string → Z.
Variable getTime : string → option Z.
Implicit Types (st : DocsState) (documents : option (list Document)).

Lemma paginatedDocuments_setSelectedIds documents ids st :
  paginatedDocuments localeCompare getTime documents (setSelectedIds ids st)
  = paginatedDocuments localeCompare getTime documents st.
Proof. done. Qed.

(** X19. The checkbox in the head of the table compares two numbers: when
    as many ids are selected as there are documents on the page, it clears
    the selection, also when the selected ids are not those of the page;
    otherwise it selects the documents of the page, in order, and (their
    ids being different from one another) a second click clears the
    selection. *)
Theorem handleSelectAll_by_count documents st :
  let page := paginatedDocuments localeCompare getTime documents st in
  let selectAll := handleSelectAll localeCompare getTime documents in
  (length (selectedIds st) = length page → selectedIds (selectAll st) = [])
  ∧ (length (selectedIds st) ≠ length page →
     NoDup (d_id <$> page) →
     selectedIds (selectAll st) = d_id <$> page
     ∧ selectedIds (selectAll (selectAll st)) = []).
Proof.
  intros page selectAll. subst selectAll. split.
  - intros Hlen. unfold handleSelectAll. fold page.
    by rewrite (proj2 (Nat.eqb_eq _ _) Hlen).
  - intros Hlen Hnodup.
    assert (selectedIds (handleSelectAll localeCompare getTime documents st)
            = d_id <$> page) as Hfirst.
    { unfold handleSelectAll. fold page.
      rewrite (proj2 (Nat.eqb_neq _ _) Hlen). cbn [selectedIds setSelectedIds].
      by apply set_of_array_NoDup. }
    split; [exact Hfirst|].
    unfold handleSelectAll at 1. rewrite Hfirst.
    unfold handleSelectAll at 1. fold page.
    rewrite (proj2 (Nat.eqb_neq _ _) Hlen).
    rewrite paginatedDocuments_setSelectedIds. fold page.
    by rewrite length_fmap, Nat.eqb_refl.
Qed.
End SelectionFacts.

(** ** The documents page: deletions *)

Section DeletionFacts.
Variable deleteDocument : string → option string.
Implicit Types (st : DocsState) (ids : list string).

Lemma deleteEach_all_deleted ids st :
  Forall (λ id, deleteDocument id = None) ids →
  ∃ st', deleteEach deleteDocument ids st = (Fulfilled (), st')
    ∧ deleteRequests st' = deleteRequests st ++ ids
    ∧ selectedIds st' = match ids with [] => selectedIds st | _ => [] end
    ∧ listRefetched st' = (listRefetched st + length ids)%nat
    ∧ deleteDialogOpen st' = deleteDialogOpen st
    ∧ deleteTarget st' = deleteTarget st
    ∧ currentPage st' = currentPage st.
Proof.
  intros Hok. revert st.
  induction Hok as [|id ids Hid Hids IH]; intros st.
  - exists st. cbn. rewrite app_nil_r, Nat.add_0_r. done.
  - cbn [deleteEach]. unfold deleteMutation. rewrite Hid.
    edestruct IH as (st' & -> & Hreq & Hsel & Href & Hopen & Htarget & Hpage).
    exists st'. split; [done|].
    rewrite Hreq, Hsel, Href, Hopen, Htarget, Hpage. cbn.
    rewrite <-app_assoc. repeat split; [by destruct ids|lia].
Qed.

(** X20. "Delete" on a row followed by the confirmation sends one
    deletion, of that document, whatever is selected. When it succeeds
    the dialog closes, the target is forgotten and the selection is
    cleared; when it fails the handler rejects with the message of the
    error, shows it in a toast, and leaves the dialog open with its target
    and the selection as it was. *)
Theorem confirmDelete_one id st :
  id ≠ "" →
  let run := confirmDelete deleteDocument (handleDelete id st) in
  deleteRequests run.2 = deleteRequests st ++ [id]
  ∧ match deleteDocument id with
    | None =>
        run.1 = Fulfilled ()
        ∧ deleteDialogOpen run.2 = false
        ∧ deleteTarget run.2 = None
        ∧ selectedIds run.2 = []
    | Some message =>
        run.1 = Rejected (ErrorObject message)
        ∧ deleteDialogOpen run.2 = true
        ∧ deleteTarget run.2 = Some id
        ∧ selectedIds run.2 = selectedIds st
        ∧ shownToasts run.2 =
            shownToasts st ++ [mkToast "Error" message (Some "destructive")]
    end.
Proof.
  intros Hid run. subst run. unfold confirmDelete, handleDelete.
  cbn [deleteTarget setDeleteDialogOpen setDeleteTarget].
  rewrite (truthy_Some id Hid). unfold deleteMutation.
  by destruct (deleteDocument id) as [message|].
Qed.

(** X21. "Delete Selected" followed by the confirmation, when every
    deletion succeeds: the selected documents are deleted one after the
    other in the order in which they were selected, then the dialog
    closes; the selection is empty afterwards and the page number is the
    one from before. *)
Theorem confirmDelete_selection st :
  Forall (λ id, deleteDocument id = None) (selectedIds st) →
  let run := confirmDelete deleteDocument (handleBulkDelete st) in
  run.1 = Fulfilled ()
  ∧ deleteRequests run.2 = deleteRequests st ++ selectedIds st
  ∧ selectedIds run.2 = []
  ∧ deleteDialogOpen run.2 = false
  ∧ deleteTarget run.2 = None
  ∧ listRefetched run.2 = (listRefetched st + length (selectedIds st))%nat
  ∧ currentPage run.2 = currentPage st.
Proof.
  intros Hok run. subst run. unfold confirmDelete.
  change (truthy (deleteTarget (handleBulkDelete st))) with (@None string).
  change (selectedIds (handleBulkDelete st)) with (selectedIds st).
  destruct (deleteEach_all_deleted (selectedIds st) (handleBulkDelete st) Hok)
    as (st' & -> & Hreq & Hsel & Href & _ & _ & Hpage).
  cbn. rewrite Hreq, Hsel, Href, Hpage. cbn.
  repeat split. by destruct (selectedIds st).
Qed.

(** X22. "Delete Selected" followed by the confirmation, when a deletion
    fails: the documents selected before the failing one have been
    deleted, the ones selected after it are never sent, the handler
    rejects with the message of the error and the dialog stays open. When
    at least one deletion went through before, the selection is empty
    although the remaining documents still exist. *)
Theorem confirmDelete_selection_stops_at_failure st deleted failing rest message :
  selectedIds st = deleted ++ failing :: rest →
  Forall (λ id, deleteDocument id = None) deleted →
  deleteDocument failing = Some message →
  let run := confirmDelete deleteDocument (handleBulkDelete st) in
  run.1 = Rejected (ErrorObject message)
  ∧ deleteRequests run.2 = deleteRequests st ++ deleted ++ [failing]
  ∧ deleteDialogOpen run.2 = true
  ∧ selectedIds run.2 =
      match deleted with [] => selectedIds st | _ => [] end
  ∧ last (shownToasts run.2)
    = Some (mkToast "Error" message (Some "destructive")).
Proof.
  intros Hsel Hok Hfail run. subst run. unfold confirmDelete.
  change (truthy (deleteTarget (handleBulkDelete st))) with (@None string).
  change (selectedIds (handleBulkDelete st)) with (selectedIds st).
  rewrite Hsel.
  assert (∀ st0, deleteEach deleteDocument (deleted ++ failing :: rest) st0 =
            match deleteEach deleteDocument deleted st0 with
            | (Fulfilled _, st1) =>
                deleteEach deleteDocument (failing :: rest) st1
            | (Rejected r, st1) => (Rejected r, st1)
            end) as Happ.
  { clear. induction deleted as [|id ids IH]; intros st0; cbn [app deleteEach].
    - done.
    - destruct (deleteMutation deleteDocument id st0) as [[[]|r] st1]; [|done].
      apply IH. }
  rewrite Happ.
  destruct (deleteEach_all_deleted deleted (handleBulkDelete st) Hok)
    as (st' & -> & Hreq & Hsel' & _ & Hopen & _ & _).
  cbn [deleteEach]. unfold deleteMutation. rewrite Hfail.
  cbn. rewrite Hreq, Hsel', Hopen. cbn.
  rewrite <-app_assoc, last_snoc. repeat split.
  destruct deleted; [by rewrite Hsel|done].
Qed.
End DeletionFacts.

(** ** The documents page: the badge of a file type *)

(** X23. The badge of a document agrees with the type filter that lets it
    through: PDF, DOC, XML or TXT; and the colour of a badge depends on
    its letters alone. *)
Theorem file_type_badge_matches_filter :
  (∀ type mimeTypes mimeType,
     typeMap type = Some mimeTypes → mimeType ∈ mimeTypes →
     getFileTypeIcon mimeType =
       match type with
       | TypePdf => "PDF"
       | TypeWord => "DOC"
       | TypeXml => "XML"
       | TypeText => "TXT"
       | TypeAll => "FILE"
       end)
  ∧ (∀ mimeType mimeType',
       getFileTypeIcon mimeType = getFileTypeIcon mimeType' →
       getFileTypeColor mimeType = getFileTypeColor mimeType').
Proof.
  split.
  - intros type mimeTypes mimeType Htype Hin.
    destruct type; cbn in Htype; simplify_eq;
      repeat (apply elem_of_cons in Hin as [->|Hin]; [reflexivity|]);
      by apply elem_of_nil in Hin.
  - intros m m'. unfold getFileTypeIcon, getFileTypeColor.
    destruct (includes m "pdf"), (includes m "word" || includes m "document"),
      (includes m "xml"), (includes m "text"),
      (includes m' "pdf"), (includes m' "word" || includes m' "document"),
      (includes m' "xml"), (includes m' "text"); done.
Qed.

(** ** The pages on sample inputs *)

Section PagesSamples.
#[local] Existing Instance asciiStrings.

Lemma handleSubmit_ignores_blank_or_busy_witness :
  let st := mkPage "   " [] false (Some "chat-1") [] 0%nat in
  handleSubmit createChatOk sendMessageOk st = (Fulfilled (), st).
Proof.
  intros st. apply handleSubmit_ignores_blank_or_busy. left. reflexivity.
Defined.

Lemma handleSubmit_create_fails_witness :
  handleSubmit createChatDown sendMessageOk noChat
  = (Rejected (ErrorObject "cannot create chat"), noChat).
Proof.
  assert (trim (query noChat) ≠ "") as Hquery by (vm_compute; discriminate).
  exact (proj1 (handleSubmit_create_fails createChatDown sendMessageOk
                  noChat (ErrorObject "cannot create chat")
                  eq_refl Hquery eq_refl eq_refl)).
Defined.


Lemma syncMessages_never_shortens_witness :
  let dbMessages := [mkMessage user "hello" None] in
  let st' := syncMessages (Some dbMessages) openChat in
  (messages st' = dbMessages ∨ messages st' = messages openChat)
  ∧ (length dbMessages ≤ length (messages st'))%nat.
Proof.
  intros dbMessages st'.
  destruct (syncMessages_never_shortens (Some dbMessages) openChat)
    as (_ & Hdb & _).
  exact (Hdb dbMessages eq_refl).
Defined.

Lemma sync_between_halves_repeats_answer_witness :
  let question := mkMessage user "What is X?" None in
  let answer := mkMessage assistant "answer to What is X?" (Some []) in
  messages
    (settleSubmit "What is X?"
       (Fulfilled (mkReply "answer to What is X?" (Some [])))
       (syncMessages (Some (messages openChat ++ [question; answer]))
          (beginSubmit "What is X?" openChat))).2
  = messages openChat ++ [question; answer; answer].
Proof.
  intros question answer.
  exact (proj2 (sync_between_halves_repeats_answer sendMessageOk "chat-1"
                  "What is X?" openChat
                  (mkReply "answer to What is X?" (Some [])) eq_refl)).
Defined.

Lemma handleNewChat_then_submit_witness :
  let st' := (handleSubmit createChatOk sendMessageOk (handleNewChat openChat)).2 in
  messages st' =
    [mkMessage user "What is X?" None;
     mkMessage assistant "answer to What is X?" (Some [])]
  ∧ currentChatId st' = Some "chat:What is X?".
Proof.
  assert (trim (query openChat) ≠ "") as Hquery by (vm_compute; discriminate).
  exact (handleNewChat_then_submit createChatOk sendMessageOk openChat
           "chat:What is X?" (mkReply "answer to What is X?" (Some []))
           eq_refl Hquery eq_refl eq_refl).
Defined.

Lemma legacyHandleSubmit_first_question_not_sent_witness :
  let st' := (legacyHandleSubmit createChatOk sendMessageOk legacyNoChat).2 in
  l_messages st' = []
  ∧ l_query st' = "What is X?"
  ∧ l_currentChatId st' = Some "chat:What is X?".
Proof.
  intros st'.
  assert (trim (l_query legacyNoChat) ≠ "") as Hquery
    by (vm_compute; discriminate).
  destruct (legacyHandleSubmit_first_question_not_sent createChatOk
              sendMessageOk legacyNoChat "chat:What is X?"
              eq_refl Hquery eq_refl eq_refl)
    as (Hmessages & Hq & Hchat & _).
  split; [exact Hmessages|]. split; [exact Hq|exact Hchat].
Defined.

Lemma legacyHandleSubmit_failure_keeps_question_witness :
  let st' := (legacyHandleSubmit createChatOk sendMessageDown legacyOpenChat).2 in
  l_messages st' =
    l_messages legacyOpenChat ++ [mkMessage user "What is X?" None]
  ∧ length (l_messages st') = 3%nat
  ∧ l_isStreaming st' = false
  ∧ l_query st' = "".
Proof.
  assert (trim (l_query legacyOpenChat) ≠ "") as Hquery
    by (vm_compute; discriminate).
  exact (legacyHandleSubmit_failure_keeps_question createChatOk
           sendMessageDown legacyOpenChat "chat-1"
           (ErrorObject "generation failed") eq_refl Hquery eq_refl eq_refl).
Defined.

Lemma filteredDocuments_exactly_the_matches_witness :
  filteredDocuments sampleLocaleCompare sampleGetTime (Some sampleDocuments)
    freshPage
  ≡ₚ sampleDocuments.
Proof.
  destruct (filteredDocuments_exactly_the_matches sampleLocaleCompare
              sampleGetTime sampleDocuments freshPage)
    as (_ & _ & Hall & _).
  exact (Hall eq_refl eq_refl eq_refl).
Defined.

Lemma filteredDocuments_in_order_witness :
  StronglySorted (λ a b, d_size a ≤ d_size b)
    (filteredDocuments sampleLocaleCompare sampleGetTime (Some sampleDocuments)
       searchingReports)
  ∧ StronglySorted
      (λ a b, ∀ ta tb, sampleGetTime (d_createdAt b) = Some ta →
                       sampleGetTime (d_createdAt a) = Some tb → ta ≤ tb)
      (filteredDocuments sampleLocaleCompare sampleGetTime
         (Some sampleDocuments) freshPage).
Proof.
  split.
  - exact (proj1 (filteredDocuments_in_order sampleLocaleCompare sampleGetTime
                    sampleDocuments searchingReports) eq_refl).
  - apply (proj2 (filteredDocuments_in_order sampleLocaleCompare sampleGetTime
                    sampleDocuments freshPage) eq_refl).
    repeat (constructor; [by eexists|]). constructor.
Defined.

Lemma page_length_witness :
  length (paginatedDocuments sampleLocaleCompare sampleGetTime
            (Some sampleDocuments) secondPage) = 2%nat.
Proof.
  assert (1 ≤ currentPage secondPage) as Hpage by (vm_compute; discriminate).
  destruct (page_length sampleLocaleCompare sampleGetTime
              (Some sampleDocuments) secondPage Hpage) as (Hlen & _).
  apply Nat2Z.inj. rewrite Hlen. reflexivity.
Defined.

Lemma navigation_stays_within_pages_witness :
  currentPage (previousPage secondPage) = 1
  ∧ currentPage (nextPage sampleLocaleCompare sampleGetTime
                   (Some sampleDocuments) secondPage) = 2.
Proof.
  assert (1 ≤ currentPage secondPage
          ≤ totalPages sampleLocaleCompare sampleGetTime
              (Some sampleDocuments) secondPage) as Hvalid
    by (vm_compute; split; discriminate).
  destruct (navigation_stays_within_pages sampleLocaleCompare sampleGetTime
              (Some sampleDocuments) secondPage Hvalid)
    as ((_ & Hprev) & (_ & Hnext) & _).
  split; [exact Hprev|exact Hnext].
Defined.

Lemma handleSelect_toggles_witness :
  ("d3" ∉ selectedIds (handleSelect "d3" secondPage))
  ∧ selectedIds (handleSelect "d3" (handleSelect "d3" secondPage))
    ≡ₚ ["d12"; "d3"; "d1"].
Proof.
  assert (NoDup (selectedIds secondPage)) as Hnodup
    by compute_done.
  destruct (handleSelect_toggles "d3" secondPage Hnodup)
    as (Hid & _ & _ & Htwice).
  split; [|exact Htwice].
  intros Hin. apply Hid in Hin. apply Hin. compute_done.
Defined.

Lemma handleSelectAll_by_count_witness :
  let selectAll :=
    handleSelectAll sampleLocaleCompare sampleGetTime (Some sampleDocuments) in
  selectedIds (selectAll secondPage) = ["d3"; "d2"]
  ∧ selectedIds (selectAll (selectAll secondPage)) = [].
Proof.
  intros selectAll.
  destruct (handleSelectAll_by_count sampleLocaleCompare sampleGetTime
              (Some sampleDocuments) secondPage) as (_ & Hselect).
  apply Hselect.
  - vm_compute. discriminate.
  - compute_done.
Defined.

(** Two documents selected on the first page, then the second page, which
    has two documents as well: the checkbox clears the selection. *)
Example handleSelectAll_clears_other_page :
  selectedIds
    (handleSelectAll sampleLocaleCompare sampleGetTime (Some sampleDocuments)
       (setSelectedIds ["d12"; "d11"] secondPage)) = [].
Proof. reflexivity. Qed.

Lemma confirmDelete_one_witness :
  let run := confirmDelete sampleDelete (handleDelete "d3" secondPage) in
  deleteRequests run.2 = ["d3"]
  ∧ run.1 = Rejected (ErrorObject "document is locked")
  ∧ deleteDialogOpen run.2 = true
  ∧ deleteTarget run.2 = Some "d3"
  ∧ selectedIds run.2 = ["d12"; "d3"; "d1"].
Proof.
  intros run.
  assert ("d3" ≠ "") as Hid by discriminate.
  destruct (confirmDelete_one sampleDelete "d3" secondPage Hid)
    as (Hrequests & Hout & Hopen & Htarget & Hselected & _).
  split; [exact Hrequests|]. split; [exact Hout|]. split; [exact Hopen|].
  split; [exact Htarget|exact Hselected].
Defined.

Lemma confirmDelete_selection_witness :
  let st := setSelectedIds ["d12"; "d1"] secondPage in
  let run := confirmDelete sampleDelete (handleBulkDelete st) in
  run.1 = Fulfilled ()
  ∧ deleteRequests run.2 = ["d12"; "d1"]
  ∧ selectedIds run.2 = []
  ∧ deleteDialogOpen run.2 = false
  ∧ deleteTarget run.2 = None
  ∧ listRefetched run.2 = 2%nat
  ∧ currentPage run.2 = 2.
Proof.
  intros st run.
  apply (confirmDelete_selection sampleDelete st).
  repeat constructor.
Defined.

Lemma confirmDelete_selection_stops_at_failure_witness :
  let run := confirmDelete sampleDelete (handleBulkDelete secondPage) in
  run.1 = Rejected (ErrorObject "document is locked")
  ∧ deleteRequests run.2 = ["d12"; "d3"]
  ∧ deleteDialogOpen run.2 = true
  ∧ selectedIds run.2 = []
  ∧ last (shownToasts run.2)
    = Some (mkToast "Error" "document is locked" (Some "destructive")).
Proof.
  intros run.
  apply (confirmDelete_selection_stops_at_failure sampleDelete secondPage
           ["d12"] "d3" ["d1"] "document is locked" eq_refl);
    [repeat constructor|reflexivity].
Defined.

Lemma file_type_badge_matches_filter_witness :
  getFileTypeIcon "text/xml" = "XML"
  ∧ getFileTypeColor "application/xml" = getFileTypeColor "text/xml".
Proof.
  destruct file_type_badge_matches_filter as [Hicon Hcolour].
  split.
  - apply (Hicon TypeXml ["application/xml"; "text/xml"] "text/xml" eq_refl).
    apply list_elem_of_further, list_elem_of_here.
  - apply Hcolour. reflexivity.
Defined.
End PagesSamples.
